(** * hcvapi: a REST facade over Vault's GCP secrets engine

    A shallow embedding of the gateway ([vault] package), of the request
    handlers ([handlers] package) and of the route table ([main]), with the
    properties of the provisioning sequence and of the request/response
    translation stated and proved over it.

    Conventions.
    - A Go [string] is a Rocq [string] (a sequence of bytes).
    - A Go [error] is its message; [fmt.Errorf("p: %w", err)] is
      concatenation.  A function returning [error] returns [option error]
      ([None] is [nil]); a function returning [(T, error)] returns
      [Result T].
    - [map[string]interface{}] is [gmap string Value]; a nil map is [None]
      where the code tells nil from empty.
    - Calls that leave the process (Vault's HTTP API, the file system) are
      nodes of a program tree [Prog]; the answers come from a [World], and
      running a program records the calls it made.  A Go panic is a leaf
      of the tree.
    - Writes to the logger are not modelled. *)

From Stdlib Require Import ZArith String Ascii List Bool Lia.
From Stdlib Require Import Floats.SpecFloat.
From stdpp Require Import base option list strings gmap.

Set Warnings "-register-all".

Local Open Scope string_scope.
Local Open Scope Z_scope.

(** ** Go strings *)

Module strings.

(** [strings.HasSuffix] *)
Definition HasSuffix (s suffix : string) : bool :=
  (String.length suffix <=? String.length s)%nat
  && String.eqb
       (substring (String.length s - String.length suffix)
                  (String.length suffix) s)
       suffix.

(** [strings.TrimSuffix]: [s] without the trailing [suffix], once. *)
Definition TrimSuffix (s suffix : string) : string :=
  if HasSuffix s suffix
  then substring 0 (String.length s - String.length suffix) s
  else s.

End strings.

(** ** Dynamic values, errors *)

Abbreviation error := string (only parsing).

Inductive Result (A : Type) : Type :=
| Ok (a : A)
| Err (err : error).
Arguments Ok {A} a.
Arguments Err {A} err.

(** The dynamic type and value of an [interface{}]. *)
Inductive Value : Type :=
| VNil
| VBool (b : bool)
| VString (s : string)
| VFloat64 (f : spec_float)
| VNumber (lit : string)            (* json.Number *)
| VSlice (l : list Value)           (* []interface{} *)
| VMap (m : list (string * Value)). (* map[string]interface{} *)

(** [v.(string)], [v.(float64)], [v.([]interface{})]: the value when the
    dynamic type is the asserted one. *)
Definition assert_string (v : option Value) : option string :=
  match v with Some (VString s) => Some s | _ => None end.

Definition assert_float64 (v : option Value) : option spec_float :=
  match v with Some (VFloat64 f) => Some f | _ => None end.

Definition assert_slice (v : option Value) : option (list Value) :=
  match v with Some (VSlice l) => Some l | _ => None end.

(** The name of the dynamic type, as a failed assertion prints it. *)
Definition typeName (v : option Value) : string :=
  match v with
  | None | Some VNil => "nil"
  | Some (VBool _) => "bool"
  | Some (VString _) => "string"
  | Some (VFloat64 _) => "float64"
  | Some (VNumber _) => "json.Number"
  | Some (VSlice _) => "[]interface {}"
  | Some (VMap _) => "map[string]interface {}"
  end.

(** [int64(f)] for a [float64]: truncation toward zero; outside the range of
    [int64] (and for NaN and the infinities) the result is the one amd64
    gives. *)
Definition int64_of_float64 (f : spec_float) : Z :=
  match f with
  | S754_zero _ => 0
  | S754_finite s m e =>
      let mag := if 0 <=? e then Z.pos m * 2 ^ e else Z.pos m / 2 ^ (- e) in
      let v := if s then - mag else mag in
      if (- 2 ^ 63 <=? v) && (v <? 2 ^ 63) then v else - 2 ^ 63
  | _ => - 2 ^ 63
  end.

(** ** config *)

Module config.

Record ServerConfig := {
  Port : Z;
  Host : string;
}.

Record VaultConfig := {
  Address : string;
  Token : string;
  Namespace : string;
  SkipVerify : bool;
}.

Record GCPConfig := {
  ProjectID : string;
  ServiceAccountPath : string;
  DefaultTokenScopes : string;
  DefaultTTL : string;
  MaxTTL : string;
  DisableAutomatedRotation : bool;
}.

Record Config := {
  Server : ServerConfig;
  Vault : VaultConfig;
  GCP : GCPConfig;
}.

(** The values [setDefaults] registers; the keys without a default are the
    zero value of their type. *)
Definition defaults : Config := {|
  Server := {| Port := 8080; Host := "0.0.0.0" |};
  Vault := {| Address := "http://127.0.0.1:8200"; Token := "";
              Namespace := ""; SkipVerify := false |};
  GCP := {| ProjectID := ""; ServiceAccountPath := "";
            DefaultTokenScopes :=
              "https://www.googleapis.com/auth/cloud-platform";
            DefaultTTL := "3600s"; MaxTTL := "7200s";
            DisableAutomatedRotation := false |};
|}.

End config.

(** ** context *)

Module context.

(** [time.Duration], in nanoseconds. *)
Definition Duration := Z.
Definition Second : Duration := 1000000000.

(** A context is [context.Background()], the context the HTTP server
    attached to an inbound request (cancelled when the client goes away),
    or a context derived from another one with a timeout. *)
Inductive Context : Type :=
| Background
| Inbound (request : nat)
| WithTimeout (parent : Context) (timeout : Duration).

(** [derived ctx root]: [ctx] is [root] or was derived from it. *)
Fixpoint derived (ctx root : Context) : Prop :=
  ctx = root \/
  match ctx with
  | WithTimeout parent _ => derived parent root
  | _ => False
  end.

(** The smallest timeout on the way from [ctx] to its root, if any. *)
Fixpoint bound (ctx : Context) : option Duration :=
  match ctx with
  | WithTimeout parent d =>
      match bound parent with
      | Some d' => Some (Z.min d d')
      | None => Some d
      end
  | _ => None
  end.

(** What [ctx.Err()] answers when the inbound requests in [cancelled] have
    been cancelled and [elapsed] nanoseconds have passed since the
    context was made. *)
Fixpoint ctxErr (cancelled : nat -> bool) (elapsed : Duration)
         (ctx : Context) : option error :=
  match ctx with
  | Background => None
  | Inbound r => if cancelled r then Some "context canceled" else None
  | WithTimeout parent d =>
      match ctxErr cancelled elapsed parent with
      | Some e => Some e
      | None =>
          if d <=? elapsed then Some "context deadline exceeded" else None
      end
  end.

End context.
Import context.

(** ** The Vault client API and the file system, as calls *)

Module api.

Record MountInput := {
  Type_ : string;
  Description : string;
}.

Record MountOutput := {
  MountType : string;
  MountDescription : string;
}.

(** [api.Secret]; only [Data] is read. *)
Record Secret := {
  Data : option (gmap string Value);
}.

Record HealthResponse := {
  Initialized : bool;
  Sealed : bool;
}.

End api.

Inductive Call : Type :=
| SysListMounts                                      (* Sys().ListMounts *)
| SysMount (path : string) (input : api.MountInput)  (* Sys().Mount *)
| SysHealth (ctx : Context)                   (* Sys().HealthWithContext *)
| LogicalWrite (ctx : Context) (path : string) (data : gmap string Value)
| LogicalRead (ctx : Context) (path : string) (* Logical().ReadWithContext *)
| LogicalList (ctx : Context) (path : string)
| LogicalDelete (ctx : Context) (path : string)
| ReadFile (filename : string).                      (* ioutil.ReadFile *)

(** What each call gives back. *)
Definition Reply (c : Call) : Type :=
  match c with
  | SysListMounts => Result (gmap string api.MountOutput)
  | SysMount _ _ => option error
  | SysHealth _ => Result api.HealthResponse
  | LogicalWrite _ _ _ | LogicalRead _ _ | LogicalList _ _
  | LogicalDelete _ _ => Result (option api.Secret)
  | ReadFile _ => Result string
  end.

(** The context a call carries, if it carries one. *)
Definition call_ctx (c : Call) : option Context :=
  match c with
  | SysHealth ctx | LogicalWrite ctx _ _ | LogicalRead ctx _
  | LogicalList ctx _ | LogicalDelete ctx _ => Some ctx
  | _ => None
  end.

(** ** Programs *)

Inductive Prog (A : Type) : Type :=
| Ret (a : A)
| Panic (v : string)
| Do (c : Call) (k : Reply c -> Prog A).
Arguments Ret {A} a.
Arguments Panic {A} v.
Arguments Do {A} c k.

Fixpoint bind {A B : Type} (p : Prog A) (f : A -> Prog B) : Prog B :=
  match p with
  | Ret a => f a
  | Panic v => Panic v
  | Do c k => Do c (fun r => bind (k r) f)
  end.

#[global] Instance Prog_ret : MRet Prog := @Ret.
#[global] Instance Prog_bind : MBind Prog := fun A B f p => bind p f.

Definition call (c : Call) : Prog (Reply c) := Do c Ret.

(** A deferred [recover()]: [handle] runs in place of a panic. *)
Fixpoint recovering {A : Type} (handle : string -> Prog A) (p : Prog A)
  : Prog A :=
  match p with
  | Ret a => Ret a
  | Panic v => handle v
  | Do c k => Do c (fun r => recovering handle (k r))
  end.

(** How a program ends. *)
Inductive Outcome (A : Type) : Type :=
| Returned (a : A)
| Panicked (v : string).
Arguments Returned {A} a.
Arguments Panicked {A} v.

(** The value a program returned, if it returned. *)
Definition outcome_value {A : Type} (o : Outcome A) : option A :=
  match o with Returned a => Some a | Panicked _ => None end.

(** The world outside the process: a state and an answer to every call. *)
Record World : Type := {
  State : Type;
  answer : forall c : Call, State -> Reply c * State;
}.

Record Run (W : World) (A : Type) : Type := {
  outcome : Outcome A;
  final : State W;
  calls : list Call;
}.
Arguments outcome {W A} r.
Arguments final {W A} r.
Arguments calls {W A} r.

Fixpoint run {A : Type} (W : World) (p : Prog A) (s : State W) : Run W A :=
  match p with
  | Ret a => {| outcome := Returned a; final := s; calls := [] |}
  | Panic v => {| outcome := Panicked v; final := s; calls := [] |}
  | Do c k =>
      let '(r, s') := answer W c s in
      let rest := run W (k r) s' in
      {| outcome := outcome rest; final := final rest;
         calls := c :: calls rest |}
  end.

(** ** encoding/json, as far as the handlers use it

    A byte-by-byte scanner in the manner of the library's own, building the
    value as it goes.  Kept out of the model: invalid UTF-8 inside a string
    is left as it is (the library substitutes U+FFFD), numbers keep their
    literal (the library goes through [float64] when the target is an
    [interface{}]), and field names are matched up to ASCII case only. *)

Module json.

Inductive JSON : Type :=
| JNull
| JBool (b : bool)
| JNumber (lit : string)
| JString (s : string)
| JArray (items : list JSON)
| JObject (members : list (string * JSON)).

(** *** Bytes *)

Definition byte (c : ascii) : N := N_of_ascii c.
Definition chr (n : N) : ascii := ascii_of_N n.

(** The double quote. *)
Definition dquote : ascii := chr 34.

Definition isSpace (c : ascii) : bool :=
  let n := byte c in
  (n =? 32)%N || (n =? 9)%N || (n =? 13)%N || (n =? 10)%N.

Definition isDigit (c : ascii) : bool :=
  let n := byte c in (48 <=? n)%N && (n <=? 57)%N.

Definition hexDigit (c : ascii) : option N :=
  let n := byte c in
  if (48 <=? n)%N && (n <=? 57)%N then Some (n - 48)%N
  else if (97 <=? n)%N && (n <=? 102)%N then Some (n - 87)%N
  else if (65 <=? n)%N && (n <=? 70)%N then Some (n - 55)%N
  else None.

(** The UTF-8 encoding of a code point. *)
Definition utf8 (r : N) : list ascii :=
  if (r <? 128)%N then [chr r]
  else if (r <? 2048)%N then
    [chr (192 + r / 64); chr (128 + r mod 64)]%N
  else if (r <? 65536)%N then
    [chr (224 + r / 4096); chr (128 + (r / 64) mod 64);
     chr (128 + r mod 64)]%N
  else
    [chr (240 + r / 262144); chr (128 + (r / 4096) mod 64);
     chr (128 + (r / 64) mod 64); chr (128 + r mod 64)]%N.

(** A string literal is read as bytes and [\uXXXX] code units; surrogate
    halves are paired afterwards, a lone half becoming U+FFFD. *)
Inductive Unit : Type :=
| UByte (c : ascii)
| UCode (u : N).

Definition isHigh (u : N) : bool := (55296 <=? u)%N && (u <? 56320)%N.
Definition isLow (u : N) : bool := (56320 <=? u)%N && (u <? 57344)%N.

Fixpoint unquote (units : list Unit) : list ascii :=
  match units with
  | [] => []
  | UByte c :: rest => c :: unquote rest
  | UCode u :: rest =>
      if isHigh u then
        match rest with
        | UCode v :: rest' =>
            if isLow v
            then utf8 (65536 + (u - 55296) * 1024 + (v - 56320))%N
                 ++ unquote rest'
            else utf8 65533 ++ unquote rest
        | _ => utf8 65533 ++ unquote rest
        end
      else if isLow u then utf8 65533 ++ unquote rest
      else utf8 u ++ unquote rest
  end.

Definition text (units : list Unit) : string :=
  string_of_list_ascii (unquote units).

(** *** The scanner *)

(** A container being read: the items so far (latest first), and for an
    object the key waiting for its value. *)
Inductive Frame : Type :=
| FArray (items : list JSON)
| FObject (members : list (string * JSON)) (key : option string).

Inductive Escape : Type :=
| ENone
| EBackslash
| EUnicode (digits : list N).

Inductive NumState : Type :=
| NNeg | N0 | N1 | NDot | NDot0 | NE | NESign | NE0.

Inductive Mode : Type :=
| BeginValue
| BeginValueOrEmpty                    (* after '[' *)
| BeginStringOrEmpty                   (* after '{' *)
| BeginString                          (* after ',' in an object *)
| Colon                                (* after a key *)
| EndValue                             (* after a value in a container *)
| InString (key : bool) (units : list Unit) (esc : Escape)
| InNumber (st : NumState) (lit : list ascii)
| InLiteral (rest : list ascii) (v : JSON)
| EndTop (v : JSON)                    (* the top-level value is complete *)
| Trailing (v : JSON)                  (* and something follows it *)
| Invalid.

Definition Scanner : Type := list Frame * Mode.

(** A value is complete: it goes into the innermost container, or is the
    top-level value. *)
Definition complete (stack : list Frame) (v : JSON) : Scanner :=
  match stack with
  | [] => ([], EndTop v)
  | FArray items :: stack => (FArray (v :: items) :: stack, EndValue)
  | FObject members (Some k) :: stack =>
      (FObject ((k, v) :: members) None :: stack, EndValue)
  | FObject _ None :: _ => (stack, Invalid)
  end.

Definition beginValue (stack : list Frame) (c : ascii) : Scanner :=
  if Ascii.eqb c dquote then (stack, InString false [] ENone) else
  match c with
  | "{"%char => (FObject [] None :: stack, BeginStringOrEmpty)
  | "["%char => (FArray [] :: stack, BeginValueOrEmpty)
  | "-"%char => (stack, InNumber NNeg [c])
  | "0"%char => (stack, InNumber N0 [c])
  | "t"%char => (stack, InLiteral (list_ascii_of_string "rue") (JBool true))
  | "f"%char =>
      (stack, InLiteral (list_ascii_of_string "alse") (JBool false))
  | "n"%char => (stack, InLiteral (list_ascii_of_string "ull") JNull)
  | _ => if isDigit c then (stack, InNumber N1 [c]) else (stack, Invalid)
  end.

(** The byte after a value. *)
Definition endValue (stack : list Frame) (c : ascii) : Scanner :=
  if isSpace c then (stack, EndValue) else
  match stack, c with
  | FArray _ :: _, ","%char => (stack, BeginValue)
  | FObject _ None :: _, ","%char => (stack, BeginString)
  | FArray items :: stack', "]"%char => complete stack' (JArray (rev items))
  | FObject members None :: stack', "}"%char =>
      complete stack' (JObject (rev members))
  | _, _ => (stack, Invalid)
  end.

(** The byte after a value that ended because this byte is not part of
    it (numbers have no closing byte). *)
Definition afterValue (sc : Scanner) (c : ascii) : Scanner :=
  match sc with
  | (stack, EndValue) => endValue stack c
  | (stack, EndTop v) =>
      if isSpace c then (stack, EndTop v) else (stack, Trailing v)
  | sc => sc
  end.

Definition inString (stack : list Frame) (key : bool) (units : list Unit)
           (esc : Escape) (c : ascii) : Scanner :=
  match esc with
  | ENone =>
      if Ascii.eqb c dquote then
        let s := text (rev units) in
        if key then
          match stack with
          | FObject members None :: stack' =>
              (FObject members (Some s) :: stack', Colon)
          | _ => (stack, Invalid)
          end
        else complete stack (JString s)
      else if Ascii.eqb c "\" then (stack, InString key units EBackslash)
      else if (byte c <? 32)%N then (stack, Invalid)
      else (stack, InString key (UByte c :: units) ENone)
  | EBackslash =>
      let plain b := (stack, InString key (UByte b :: units) ENone) in
      if Ascii.eqb c dquote then plain c else
      match c with
      | "\"%char | "/"%char => plain c
      | "b"%char => plain (chr 8)
      | "f"%char => plain (chr 12)
      | "n"%char => plain (chr 10)
      | "r"%char => plain (chr 13)
      | "t"%char => plain (chr 9)
      | "u"%char => (stack, InString key units (EUnicode []))
      | _ => (stack, Invalid)
      end
  | EUnicode digits =>
      match hexDigit c with
      | None => (stack, Invalid)
      | Some d =>
          match digits with
          | [d1; d2; d3] =>
              let u := (((d1 * 16 + d2) * 16 + d3) * 16 + d)%N in
              (stack, InString key (UCode u :: units) ENone)
          | _ => (stack, InString key units (EUnicode (digits ++ [d])))
          end
      end
  end.

Definition inNumber (stack : list Frame) (st : NumState) (lit : list ascii)
           (c : ascii) : Scanner :=
  let more st' := (stack, InNumber st' (c :: lit)) in
  let done :=
    afterValue (complete stack (JNumber (string_of_list_ascii (rev lit))))
               c in
  let isE := Ascii.eqb c "e" || Ascii.eqb c "E" in
  match st with
  | NNeg =>
      if Ascii.eqb c "0" then more N0
      else if isDigit c then more N1 else (stack, Invalid)
  | N1 =>
      if isDigit c then more N1
      else if Ascii.eqb c "." then more NDot
      else if isE then more NE else done
  | N0 =>
      if Ascii.eqb c "." then more NDot
      else if isE then more NE else done
  | NDot => if isDigit c then more NDot0 else (stack, Invalid)
  | NDot0 =>
      if isDigit c then more NDot0 else if isE then more NE else done
  | NE =>
      if Ascii.eqb c "+" || Ascii.eqb c "-" then more NESign
      else if isDigit c then more NE0 else (stack, Invalid)
  | NESign => if isDigit c then more NE0 else (stack, Invalid)
  | NE0 => if isDigit c then more NE0 else done
  end.

Definition step (sc : Scanner) (c : ascii) : Scanner :=
  let '(stack, mode) := sc in
  match mode with
  | BeginValue =>
      if isSpace c then sc else beginValue stack c
  | BeginValueOrEmpty =>
      if isSpace c then sc
      else if Ascii.eqb c "]" then
        match stack with
        | FArray _ :: stack' => complete stack' (JArray [])
        | _ => (stack, Invalid)
        end
      else beginValue stack c
  | BeginStringOrEmpty =>
      if isSpace c then sc
      else if Ascii.eqb c "}" then
        match stack with
        | FObject _ _ :: stack' => complete stack' (JObject [])
        | _ => (stack, Invalid)
        end
      else if Ascii.eqb c dquote then (stack, InString true [] ENone)
      else (stack, Invalid)
  | BeginString =>
      if isSpace c then sc
      else if Ascii.eqb c dquote then (stack, InString true [] ENone)
      else (stack, Invalid)
  | Colon =>
      if isSpace c then sc
      else if Ascii.eqb c ":" then (stack, BeginValue)
      else (stack, Invalid)
  | EndValue => endValue stack c
  | InString key units esc => inString stack key units esc c
  | InNumber st lit => inNumber stack st lit c
  | InLiteral rest v =>
      match rest with
      | [] => (stack, Invalid)
      | [e] => if Ascii.eqb c e then complete stack v else (stack, Invalid)
      | e :: rest' =>
          if Ascii.eqb c e then (stack, InLiteral rest' v)
          else (stack, Invalid)
      end
  | EndTop v => if isSpace c then sc else (stack, Trailing v)
  | Trailing _ | Invalid => sc
  end.

Definition scan (input : string) : Scanner :=
  fold_left step (list_ascii_of_string input) ([], BeginValue).

(** The end of the input: a top-level number ends here. *)
Definition eof (sc : Scanner) : Scanner :=
  match sc with
  | ([], InNumber st lit) =>
      match st with
      | N0 | N1 | NDot0 | NE0 =>
          ([], EndTop (JNumber (string_of_list_ascii (rev lit))))
      | _ => sc
      end
  | sc => sc
  end.

(** [json.NewDecoder(r).Decode]: the first value of the stream; what
    follows it is left unread. *)
Definition Decode (input : string) : Result JSON :=
  match eof (scan input) with
  | (_, EndTop v) | (_, Trailing v) => Ok v
  | (_, Invalid) => Err "invalid character in JSON input"
  | ([], BeginValue) => Err "EOF"
  | _ => Err "unexpected EOF"
  end.

(** The check [json.Unmarshal] makes of its whole input. *)
Definition checkValid (input : string) : Result JSON :=
  match eof (scan input) with
  | (_, EndTop v) => Ok v
  | (_, Trailing _) => Err "invalid character after top-level value"
  | (_, Invalid) => Err "invalid character in JSON input"
  | _ => Err "unexpected end of JSON input"
  end.

(** *** Decoding into a struct whose fields are strings *)

Definition kind (v : JSON) : string :=
  match v with
  | JNull => "null"
  | JBool _ => "bool"
  | JNumber _ => "number"
  | JString _ => "string"
  | JArray _ => "array"
  | JObject _ => "object"
  end.

Definition toLower (c : ascii) : ascii :=
  let n := byte c in
  if (65 <=? n)%N && (n <=? 90)%N then chr (n + 32) else c.

Fixpoint lower (s : string) : string :=
  match s with
  | EmptyString => EmptyString
  | String c s => String (toLower c) (lower s)
  end.

(** The field a key names: the one spelled like it, letter case aside. *)
Definition field (fields : list string) (key : string) : option string :=
  find (fun f => String.eqb (lower f) (lower key)) fields.

(** The members are taken in order: a string sets its field, a null
    leaves it, anything else is a type error, of which the first is
    reported once the object has been gone through. *)
Fixpoint assign (struct : string) (fields : list string)
         (members : list (string * JSON)) (set : list (string * string))
         (err : option error) : list (string * string) * option error :=
  match members with
  | [] => (set, err)
  | (key, v) :: members =>
      match field fields key, v with
      | None, _ | Some _, JNull => assign struct fields members set err
      | Some f, JString s =>
          assign struct fields members ((f, s) :: set) err
      | Some f, _ =>
          let e := "json: cannot unmarshal " +:+ kind v
                   +:+ " into Go struct field " +:+ struct +:+ "." +:+ f
                   +:+ " of type string" in
          assign struct fields members set
                 (match err with Some _ => err | None => Some e end)
      end
  end.

Definition decodeStruct (package struct : string) (fields : list string)
           (v : JSON) : list (string * string) * option error :=
  match v with
  | JNull => ([], None)
  | JObject members => assign struct fields members [] None
  | _ => ([], Some ("json: cannot unmarshal " +:+ kind v
                   +:+ " into Go value of type " +:+ package +:+ "."
                   +:+ struct))
  end.

(** The value of a field: what was assigned last, or the zero value. *)
Definition get (set : list (string * string)) (f : string) : string :=
  match find (fun a => String.eqb (fst a) f) set with
  | Some a => snd a
  | None => ""
  end.

(** What gin's JSON binding does before validation: the first value of
    the body is decoded into the struct. *)
Definition bind (package struct : string) (fields : list string)
           (body : string) : list (string * string) * option error :=
  match Decode body with
  | Err e => ([], Some e)
  | Ok v => decodeStruct package struct fields v
  end.

(** *** [json.Unmarshal] into a [map[string]interface{}], [json.Marshal]
    of it *)

(** The entries the input adds to the map, in the order they are added
    (a later one replaces an earlier one of the same key); [null] adds
    none. *)
Definition UnmarshalMap (input : string) : Result (list (string * JSON)) :=
  match checkValid input with
  | Err e => Err e
  | Ok JNull => Ok []
  | Ok (JObject members) => Ok members
  | Ok v => Err ("json: cannot unmarshal " +:+ kind v
                 +:+ " into Go value of type map[string]interface {}")
  end.

Definition hex (n : N) : ascii :=
  if (n <? 10)%N then chr (48 + n) else chr (87 + n).

(** A byte of a string literal; [<], [>] and [&] are escaped, as the
    encoder does by default. *)
Definition quoteByte (c : ascii) : string :=
  let n := byte c in
  if (n =? 34)%N || (n =? 92)%N then String "\" (String c "")
  else if (n =? 10)%N then "\n"
  else if (n =? 13)%N then "\r"
  else if (n =? 9)%N then "\t"
  else if (n <? 32)%N || (n =? 60)%N || (n =? 62)%N || (n =? 38)%N then
    "\u00" +:+ String (hex (n / 16)) (String (hex (n mod 16)) "")
  else String c "".

(** The body of a string literal; U+2028 and U+2029 are escaped too. *)
Fixpoint quoteBody (s : list ascii) : string :=
  match s with
  | [] => ""
  | c :: rest =>
      match rest with
      | c1 :: c2 :: rest' =>
          if (byte c =? 226)%N && (byte c1 =? 128)%N
             && ((byte c2 =? 168)%N || (byte c2 =? 169)%N)
          then "\u202" +:+ String (hex (byte c2 - 160)) (quoteBody rest')
          else quoteByte c +:+ quoteBody rest
      | _ => quoteByte c +:+ quoteBody rest
      end
  end.

Definition quote (s : string) : string :=
  String dquote (quoteBody (list_ascii_of_string s) +:+ String dquote "").

Fixpoint join (sep : string) (l : list string) : string :=
  match l with
  | [] => ""
  | [x] => x
  | x :: l => x +:+ sep +:+ join sep l
  end.

(** Map keys are written in byte order, each once. *)
Fixpoint place (k e : string) (l : list (string * string))
  : list (string * string) :=
  match l with
  | [] => [(k, e)]
  | (k', e') :: l' =>
      match String.compare k k' with
      | Lt => (k, e) :: l
      | Eq => (k, e) :: l'
      | Gt => (k', e') :: place k e l'
      end
  end.

Definition sorted (members : list (string * string))
  : list (string * string) :=
  fold_left (fun acc m => place (fst m) (snd m) acc) members [].

Definition object (members : list (string * string)) : string :=
  "{" +:+ join "," (map (fun m => quote (fst m) +:+ ":" +:+ snd m)
                          (sorted members)) +:+ "}".

Fixpoint encode (v : JSON) : string :=
  match v with
  | JNull => "null"
  | JBool b => if b then "true" else "false"
  | JNumber lit => lit
  | JString s => quote s
  | JArray items => "[" +:+ join "," (map encode items) +:+ "]"
  | JObject members =>
      object (map (fun m => (fst m, encode (snd m))) members)
  end.

(** [json.Marshal] of the map the entries make. *)
Definition MarshalMap (entries : list (string * JSON)) : string :=
  encode (JObject entries).

End json.

(** ** The validator behind gin's [binding] tags *)

Module binding.

(** [required] on a string: not the zero value. *)
Definition required (s : string) : bool := negb (String.eqb s "").

(** [oneof=a b ...] *)
Definition oneof (allowed : list string) (s : string) : bool :=
  existsb (String.eqb s) allowed.

(** The message of a failed tag. *)
Definition failed (struct field tag : string) : string :=
  "Key: '" +:+ struct +:+ "." +:+ field
  +:+ "' Error:Field validation for '" +:+ field
  +:+ "' failed on the '" +:+ tag +:+ "' tag".

End binding.

(** ** vault: the secrets-engine gateway *)

Module vault.

(** The [api.Client] handle lives in the [World]; the logger is not
    modelled. *)
Record Client := {
  config : config.Config;
}.

Record TokenResponse := {
  Token : string;
  TokenTTL : string;
  ExpiresAtSeconds : Z;
}.

Record ServiceAccountKeyResponse := {
  PrivateKeyData : string;
  KeyAlgorithm : string;
  KeyType : string;
  KeyID : string;
}.

(** [Bindings] holds text: the handler converts the field to and from
    [[]byte]/[string], which is the use this record follows.  (The struct
    declaration spells the field [map[string]interface{}]; the gateway's
    guard [req.Bindings != nil && len(req.Bindings) > 0] reads the same on
    both: the field is there and is not empty.) *)
Record RolesetRequest := {
  Project : string;
  SecretType : string;
  TokenScopes : string;
  Bindings : string;
  TTL : string;
  MaxTTL : string;
}.

(** The [json] tags of [RolesetRequest]. *)
Definition RolesetRequest_fields : list string :=
  ["project"; "secret_type"; "token_scopes"; "bindings"; "ttl"; "max_ttl"].

Definition secretTypes : list string :=
  ["access_token"; "service_account_key"].

(** The [binding] tags of [RolesetRequest]: the failures, in field
    order. *)
Definition RolesetRequest_validate (req : RolesetRequest) : list string :=
  (if binding.required (Project req) then []
   else [binding.failed "RolesetRequest" "Project" "required"])
  ++ (if negb (binding.required (SecretType req))
      then [binding.failed "RolesetRequest" "SecretType" "required"]
      else if negb (binding.oneof secretTypes (SecretType req))
      then [binding.failed "RolesetRequest" "SecretType" "oneof"]
      else []).

(** The loop over the mount table in [Initialize]. *)
Definition gcpMountExists (mounts : gmap string api.MountOutput) : bool :=
  existsb (fun path => String.eqb (strings.TrimSuffix path "/") "gcp")
          (map fst (map_to_list mounts)).

Definition gcpMountInput : api.MountInput := {|
  api.Type_ := "gcp";
  api.Description :=
    "GCP secrets engine for managing access tokens and service account keys";
|}.

(** The map [configureGCPEngine] starts from. *)
Definition configData (c : Client) : gmap string Value :=
  <["disable_automated_rotation" :=
      VBool (config.DisableAutomatedRotation (config.GCP (config c)))]>
  (<["max_ttl" := VString (config.MaxTTL (config.GCP (config c)))]>
  (<["ttl" := VString (config.DefaultTTL (config.GCP (config c)))]> ∅)).

Definition writeConfig (ctx : Context) (data : gmap string Value)
  : Prog (option error) :=
  r ← call (LogicalWrite ctx "gcp/config" data);
  match r with
  | Err err => Ret (Some ("failed to configure GCP engine: " +:+ err))
  | Ok _ => Ret None
  end.

Definition configureGCPEngine (c : Client) (ctx : Context)
  : Prog (option error) :=
  let path := config.ServiceAccountPath (config.GCP (config c)) in
  if negb (String.eqb path "") then
    r ← call (ReadFile path);
    match r with
    | Err err =>
        Ret (Some ("failed to read service account file: " +:+ err))
    | Ok credentials =>
        writeConfig ctx (<["credentials" := VString credentials]>
                           (configData c))
    end
  else writeConfig ctx (configData c).

Definition Initialize (c : Client) (ctx : Context) : Prog (option error) :=
  r ← call SysListMounts;
  match r with
  | Err err => Ret (Some ("failed to list mounts: " +:+ err))
  | Ok mounts =>
      enabled ←
        (if negb (gcpMountExists mounts)
         then call (SysMount "gcp" gcpMountInput)
         else Ret None);
      match enabled with
      | Some err =>
          Ret (Some ("failed to enable GCP secrets engine: " +:+ err))
      | None =>
          configured ← configureGCPEngine c ctx;
          match configured with
          | Some err =>
              Ret (Some ("failed to configure GCP engine: " +:+ err))
          | None => Ret None
          end
      end
  end.

(** The payload [CreateRoleset] builds. *)
Definition rolesetData (c : Client) (req : RolesetRequest)
  : gmap string Value :=
  let data :=
    <["secret_type" := VString (SecretType req)]>
    (<["project" := VString (Project req)]> ∅) in
  let data :=
    if negb (String.eqb (TokenScopes req) "") then
      <["token_scopes" := VString (TokenScopes req)]> data
    else if String.eqb (SecretType req) "access_token" then
      <["token_scopes" :=
          VString (config.DefaultTokenScopes (config.GCP (config c)))]> data
    else data in
  let data :=
    if (0 <? String.length (Bindings req))%nat
    then <["bindings" := VString (Bindings req)]> data
    else data in
  let data :=
    if negb (String.eqb (TTL req) "")
    then <["ttl" := VString (TTL req)]> data
    else data in
  if negb (String.eqb (MaxTTL req) "")
  then <["max_ttl" := VString (MaxTTL req)]> data
  else data.

Definition CreateRoleset (c : Client) (ctx : Context) (name : string)
           (req : RolesetRequest) : Prog (option error) :=
  r ← call (LogicalWrite ctx ("gcp/roleset/" +:+ name) (rolesetData c req));
  match r with
  | Err err => Ret (Some ("failed to create roleset: " +:+ err))
  | Ok _ => Ret None
  end.

(** [v.(T)]: the asserted value, or the run-time panic of a failed type
    assertion. *)
Definition assertion {A B : Type} (as_T : option Value -> option A)
           (T : string) (v : option Value) (k : A -> Prog B) : Prog B :=
  match as_T v with
  | Some a => k a
  | None =>
      Panic ("interface conversion: interface {} is " +:+ typeName v
             +:+ ", not " +:+ T)
  end.

Definition GetToken (c : Client) (ctx : Context) (rolesetName ttl : string)
  : Prog (Result TokenResponse) :=
  let data : option (gmap string Value) :=
    if negb (String.eqb ttl "")
    then Some (<["ttl" := VString ttl]> ∅) else None in
  r ← match data with
      | Some data =>
          call (LogicalWrite ctx ("gcp/token/" +:+ rolesetName) data)
      | None => call (LogicalRead ctx ("gcp/token/" +:+ rolesetName))
      end;
  match r with
  | Err err => Ret (Err ("failed to get access token: " +:+ err))
  | Ok None => Ret (Err "no token data returned")
  | Ok (Some secret) =>
      match api.Data secret with
      | None => Ret (Err "no token data returned")
      | Some d =>
          assertion assert_string "string" (d !! "token")
            (fun token =>
          assertion assert_string "string" (d !! "token_ttl")
            (fun token_ttl =>
          assertion assert_float64 "float64" (d !! "expires_at_seconds")
            (fun expires =>
          Ret (Ok {| Token := token; TokenTTL := token_ttl;
                     ExpiresAtSeconds := int64_of_float64 expires |}))))
      end
  end.

Definition GetServiceAccountKey (c : Client) (ctx : Context)
           (rolesetName : string) : Prog (Result ServiceAccountKeyResponse) :=
  r ← call (LogicalRead ctx ("gcp/key/" +:+ rolesetName));
  match r with
  | Err err => Ret (Err ("failed to get service account key: " +:+ err))
  | Ok None => Ret (Err "no key data returned")
  | Ok (Some secret) =>
      match api.Data secret with
      | None => Ret (Err "no key data returned")
      | Some d =>
          assertion assert_string "string" (d !! "private_key_data")
            (fun private_key_data =>
          assertion assert_string "string" (d !! "key_algorithm")
            (fun key_algorithm =>
          assertion assert_string "string" (d !! "key_type")
            (fun key_type =>
          assertion assert_string "string" (d !! "key_id")
            (fun key_id =>
          Ret (Ok {| PrivateKeyData := private_key_data;
                     KeyAlgorithm := key_algorithm;
                     KeyType := key_type; KeyID := key_id |})))))
      end
  end.

(** The loop [rolesets[i] = key.(string)]: the first key that is not a
    string panics. *)
Fixpoint keyStrings (keys : list Value) : Prog (list string) :=
  match keys with
  | [] => Ret []
  | key :: keys =>
      assertion assert_string "string" (Some key)
        (fun s => rest ← keyStrings keys; Ret (s :: rest))
  end.

Definition ListRolesets (c : Client) (ctx : Context)
  : Prog (Result (list string)) :=
  r ← call (LogicalList ctx "gcp/roleset");
  match r with
  | Err err => Ret (Err ("failed to list rolesets: " +:+ err))
  | Ok None => Ret (Ok [])
  | Ok (Some secret) =>
      match api.Data secret with
      | None => Ret (Ok [])
      | Some d =>
          match assert_slice (d !! "keys") with
          | None => Ret (Ok [])
          | Some keys =>
              rolesets ← keyStrings keys;
              Ret (Ok rolesets)
          end
      end
  end.

Definition DeleteRoleset (c : Client) (ctx : Context) (name : string)
  : Prog (option error) :=
  r ← call (LogicalDelete ctx ("gcp/roleset/" +:+ name));
  match r with
  | Err err => Ret (Some ("failed to delete roleset: " +:+ err))
  | Ok _ => Ret None
  end.

(** [%v] of a bool. *)
Definition fmt_bool (b : bool) : string := if b then "true" else "false".

Definition HealthCheck (c : Client) (ctx : Context) : Prog (option error) :=
  let ctx := WithTimeout ctx (5 * Second) in
  r ← call (SysHealth ctx);
  match r with
  | Err err => Ret (Some ("vault health check failed: " +:+ err))
  | Ok health =>
      if negb (api.Initialized health) || api.Sealed health then
        Ret (Some ("vault is not ready: initialized="
                   +:+ fmt_bool (api.Initialized health)
                   +:+ ", sealed=" +:+ fmt_bool (api.Sealed health)))
      else Ret None
  end.

End vault.

(** ** handlers *)

Module gin.

(** What a handler reads of [*gin.Context]. *)
Record Context := {
  Params : list (string * string);
  Body : string;
  RequestContext : context.Context;     (* c.Request.Context() *)
}.

(** [c.Param(key)]: the value, or the empty string. *)
Definition Param (c : Context) (key : string) : string :=
  match find (fun p => String.eqb (fst p) key) (Params c) with
  | Some p => snd p
  | None => ""
  end.

End gin.

Module http.
Definition StatusOK : Z := 200.
Definition StatusCreated : Z := 201.
Definition StatusBadRequest : Z := 400.
Definition StatusInternalServerError : Z := 500.
Definition StatusServiceUnavailable : Z := 503.
End http.

Module handlers.

Record Handler := {
  vaultClient : vault.Client;
}.

(** The values the handlers put in [SuccessResponse.Data]. *)
Inductive Data : Type :=
| TokenData (token : vault.TokenResponse)
| KeyData (key : vault.ServiceAccountKeyResponse)
| RolesetsData (rolesets : list string) (count : Z)
| NameData (name : string).

(** The values the handlers pass to [c.JSON]. *)
Inductive Object : Type :=
| H (entries : list (string * string))            (* gin.H *)
| ErrorResponse (Error Details : string)
| SuccessResponse (Message : string) (data : option Data).

Record Response := {
  Status : Z;
  Payload : Object;
}.

Definition JSON (code : Z) (obj : Object) : Response :=
  {| Status := code; Payload := obj |}.

Record TokenRequest := {
  TTL : string;
}.

(** [c.ShouldBindJSON(&req)] for a [vault.RolesetRequest]. *)
Definition ShouldBindJSON_RolesetRequest (c : gin.Context)
  : Result vault.RolesetRequest :=
  match json.bind "vault" "RolesetRequest" vault.RolesetRequest_fields
                  (gin.Body c) with
  | (_, Some err) => Err err
  | (set, None) =>
      let req := {|
        vault.Project := json.get set "project";
        vault.SecretType := json.get set "secret_type";
        vault.TokenScopes := json.get set "token_scopes";
        vault.Bindings := json.get set "bindings";
        vault.TTL := json.get set "ttl";
        vault.MaxTTL := json.get set "max_ttl";
      |} in
      match vault.RolesetRequest_validate req with
      | [] => Ok req
      | failures => Err (json.join (String (json.chr 10) "") failures)
      end
  end.

(** [c.ShouldBindJSON(&tokenReq)]: the struct is returned with what was
    decoded into it even when there is an error, which the caller
    ignores. *)
Definition ShouldBindJSON_TokenRequest (c : gin.Context)
  : TokenRequest * option error :=
  let '(set, err) := json.bind "handlers" "TokenRequest" ["ttl"]
                               (gin.Body c) in
  ({| TTL := json.get set "ttl" |}, err).

Definition HealthCheck (h : Handler) (c : gin.Context) : Prog Response :=
  let ctx := WithTimeout (gin.RequestContext c) (5 * Second) in
  err ← vault.HealthCheck (vaultClient h) ctx;
  match err with
  | Some err =>
      Ret (JSON http.StatusServiceUnavailable
                (ErrorResponse "Service unavailable" err))
  | None =>
      Ret (JSON http.StatusOK (SuccessResponse "Service is healthy" None))
  end.

Definition CreateRoleset (h : Handler) (c : gin.Context) : Prog Response :=
  let rolesetName := gin.Param c "name" in
  if String.eqb rolesetName "" then
    Ret (JSON http.StatusBadRequest (H [("error", "Roleset name required")]))
  else
  match ShouldBindJSON_RolesetRequest c with
  | Err err => Ret (JSON http.StatusBadRequest (H [("error", err)]))
  | Ok req =>
      match json.UnmarshalMap (vault.Bindings req) with
      | Err _ =>
          Ret (JSON http.StatusBadRequest
                    (H [("error", "Invalid bindings format")]))
      | Ok bindingsMap =>
          let bindingsJSON := json.MarshalMap bindingsMap in
          let req := {|
            vault.Project := vault.Project req;
            vault.SecretType := vault.SecretType req;
            vault.TokenScopes := vault.TokenScopes req;
            vault.Bindings := bindingsJSON;
            vault.TTL := vault.TTL req;
            vault.MaxTTL := vault.MaxTTL req;
          |} in
          err ← vault.CreateRoleset (vaultClient h) Background rolesetName
                                    req;
          match err with
          | Some err =>
              Ret (JSON http.StatusInternalServerError (H [("error", err)]))
          | None =>
              Ret (JSON http.StatusCreated
                        (H [("message", "Roleset created successfully")]))
          end
      end
  end.

Definition GetAccessToken (h : Handler) (c : gin.Context) : Prog Response :=
  let rolesetName := gin.Param c "name" in
  if String.eqb rolesetName "" then
    Ret (JSON http.StatusBadRequest
              (ErrorResponse "Roleset name is required" ""))
  else
  let tokenReq := fst (ShouldBindJSON_TokenRequest c) in
  let ctx := WithTimeout (gin.RequestContext c) (30 * Second) in
  r ← vault.GetToken (vaultClient h) ctx rolesetName (TTL tokenReq);
  match r with
  | Err err =>
      Ret (JSON http.StatusInternalServerError
                (ErrorResponse "Failed to generate access token" err))
  | Ok token =>
      Ret (JSON http.StatusOK
                (SuccessResponse "Access token generated successfully"
                                 (Some (TokenData token))))
  end.

Definition GetServiceAccountKey (h : Handler) (c : gin.Context)
  : Prog Response :=
  let rolesetName := gin.Param c "name" in
  if String.eqb rolesetName "" then
    Ret (JSON http.StatusBadRequest
              (ErrorResponse "Roleset name is required" ""))
  else
  let ctx := WithTimeout (gin.RequestContext c) (30 * Second) in
  r ← vault.GetServiceAccountKey (vaultClient h) ctx rolesetName;
  match r with
  | Err err =>
      Ret (JSON http.StatusInternalServerError
                (ErrorResponse "Failed to generate service account key" err))
  | Ok key =>
      Ret (JSON http.StatusOK
                (SuccessResponse "Service account key generated successfully"
                                 (Some (KeyData key))))
  end.

Definition ListRolesets (h : Handler) (c : gin.Context) : Prog Response :=
  let ctx := WithTimeout (gin.RequestContext c) (15 * Second) in
  r ← vault.ListRolesets (vaultClient h) ctx;
  match r with
  | Err err =>
      Ret (JSON http.StatusInternalServerError
                (ErrorResponse "Failed to list rolesets" err))
  | Ok rolesets =>
      Ret (JSON http.StatusOK
                (SuccessResponse "Rolesets retrieved successfully"
                   (Some (RolesetsData rolesets
                                       (Z.of_nat (length rolesets))))))
  end.

Definition DeleteRoleset (h : Handler) (c : gin.Context) : Prog Response :=
  let rolesetName := gin.Param c "name" in
  if String.eqb rolesetName "" then
    Ret (JSON http.StatusBadRequest
              (ErrorResponse "Roleset name is required" ""))
  else
  let ctx := WithTimeout (gin.RequestContext c) (15 * Second) in
  err ← vault.DeleteRoleset (vaultClient h) ctx rolesetName;
  match err with
  | Some err =>
      Ret (JSON http.StatusInternalServerError
                (ErrorResponse "Failed to delete roleset" err))
  | None =>
      Ret (JSON http.StatusOK
                (SuccessResponse "Roleset deleted successfully"
                                 (Some (NameData rolesetName))))
  end.

(** The logging wrapper only writes to the logger once the rest of the
    chain is back. *)
Definition LoggingMiddleware (h : Handler) (next : Prog Response)
  : Prog Response := next.

(** [gin.CustomRecovery]: a panic further down the chain becomes the
    response of the recovery function. *)
Definition ErrorHandlingMiddleware (h : Handler) (next : Prog Response)
  : Prog Response :=
  recovering
    (fun recovered =>
       Ret (JSON http.StatusInternalServerError
                 (ErrorResponse "Internal server error" "")))
    next.

End handlers.

(** ** main: the route table *)

Module main.

(** The routes [setupRoutes] registers. *)
Inductive Route : Type :=
| GET_health
| GET_rolesets
| POST_rolesets_name
| DELETE_rolesets_name
| POST_tokens_name
| POST_keys_name.

Definition handler (h : handlers.Handler) (r : Route)
  : gin.Context -> Prog handlers.Response :=
  match r with
  | GET_health => handlers.HealthCheck h
  | GET_rolesets => handlers.ListRolesets h
  | POST_rolesets_name => handlers.CreateRoleset h
  | DELETE_rolesets_name => handlers.DeleteRoleset h
  | POST_tokens_name => handlers.GetAccessToken h
  | POST_keys_name => handlers.GetServiceAccountKey h
  end.

(** A request through the chain [router.Use] builds: recovery, logging,
    the route's handler. *)
Definition serve (h : handlers.Handler) (r : Route) (c : gin.Context)
  : Prog handlers.Response :=
  handlers.ErrorHandlingMiddleware h
    (handlers.LoggingMiddleware h (handler h r c)).

(** Start-up, from the client on: [Initialize], then the first
    [HealthCheck], under one context with a 60 s timeout.  [Some err] is
    the fatal exit. *)
Definition startup (client : vault.Client) : Prog (option error) :=
  let ctx := WithTimeout Background (60 * Second) in
  err ← vault.Initialize client ctx;
  match err with
  | Some err => Ret (Some err)
  | None => vault.HealthCheck client ctx
  end.

End main.

(** ** Worlds *)

(** A world that answers each call the same way every time. *)
Definition fixed (replies : forall c : Call, Reply c) : World :=
  {| State := unit; answer := fun c s => (replies c, s) |}.

(** A Vault with nothing mounted and nothing stored, on an empty disk. *)
Definition blank (c : Call) : Reply c :=
  match c with
  | SysListMounts => Ok ∅
  | SysMount _ _ => None
  | SysHealth _ => Ok {| api.Initialized := true; api.Sealed := false |}
  | LogicalWrite _ _ _ | LogicalRead _ _ | LogicalList _ _
  | LogicalDelete _ _ => Ok None
  | ReadFile filename =>
      Err ("open " +:+ filename +:+ ": no such file or directory")
  end.

(** A call that came back with an error. *)
Definition failed (c : Call) : Reply c -> Prop :=
  match c with
  | SysMount _ _ => fun r => is_Some r
  | SysListMounts => fun r => exists e, r = Err e
  | SysHealth _ => fun r => exists e, r = Err e
  | LogicalWrite _ _ _ | LogicalRead _ _ | LogicalList _ _
  | LogicalDelete _ _ => fun r => exists e, r = Err e
  | ReadFile _ => fun r => exists e, r = Err e
  end.

(** The client gives up a call whose context is done: with the inbound
    requests of [cancelled] cancelled and [elapsed] nanoseconds gone, such a
    call comes back with the context's error. *)
Definition honours (cancelled : nat -> bool) (elapsed : Duration) (W : World)
  : Prop :=
  forall (c : Call) (ctx : Context) (s : State W),
    call_ctx c = Some ctx ->
    is_Some (ctxErr cancelled elapsed ctx) ->
    failed c (fst (answer W c s)).

(** [W], behind a client that gives up the calls whose context is done. *)
Definition honouring (cancelled : nat -> bool) (elapsed : Duration) (W : World)
  : World :=
  {| State := State W;
     answer := fun c =>
       match c return State W -> Reply c * State W with
       | SysHealth ctx => fun s =>
           match ctxErr cancelled elapsed ctx with
           | Some e => (Err e, s)
           | None => answer W (SysHealth ctx) s
           end
       | LogicalWrite ctx path data => fun s =>
           match ctxErr cancelled elapsed ctx with
           | Some e => (Err e, s)
           | None => answer W (LogicalWrite ctx path data) s
           end
       | LogicalRead ctx path => fun s =>
           match ctxErr cancelled elapsed ctx with
           | Some e => (Err e, s)
           | None => answer W (LogicalRead ctx path) s
           end
       | LogicalList ctx path => fun s =>
           match ctxErr cancelled elapsed ctx with
           | Some e => (Err e, s)
           | None => answer W (LogicalList ctx path) s
           end
       | LogicalDelete ctx path => fun s =>
           match ctxErr cancelled elapsed ctx with
           | Some e => (Err e, s)
           | None => answer W (LogicalDelete ctx path) s
           end
       | c => answer W c
       end |}.

(** A small Vault: a mount table, the paths written so far, a disk. *)
Module sim.

Record Vault := {
  mounts : gmap string api.MountOutput;
  store : gmap string (gmap string Value);
  files : gmap string string;
  health : api.HealthResponse;
}.

(** The names stored right under [path/]. *)
Definition children (path : string) (v : Vault) : list string :=
  omap (fun p =>
          if String.prefix (path +:+ "/") p
          then Some (substring (String.length path + 1)
                               (String.length p) p)
          else None)
       (map fst (map_to_list (store v))).

Definition reply (c : Call) (v : Vault) : Reply c * Vault :=
  match c with
  | SysListMounts => (Ok (mounts v), v)
  | SysMount path input =>
      match mounts v !! (path +:+ "/") with
      | Some _ => (Some ("path is already in use at " +:+ path +:+ "/"), v)
      | None =>
          (None,
           {| mounts :=
                <[path +:+ "/" :=
                    {| api.MountType := api.Type_ input;
                       api.MountDescription := api.Description input |}]>
                (mounts v);
              store := store v; files := files v; health := health v |})
      end
  | SysHealth _ => (Ok (health v), v)
  | LogicalWrite _ path data =>
      (Ok None,
       {| mounts := mounts v; store := <[path := data]> (store v);
          files := files v; health := health v |})
  | LogicalRead _ path =>
      (Ok ((fun d => {| api.Data := Some d |}) <$> store v !! path), v)
  | LogicalList _ path =>
      match children path v with
      | [] => (Ok None, v)
      | names =>
          (Ok (Some {| api.Data :=
                         Some (<["keys" := VSlice (map VString names)]> ∅)
                    |}), v)
      end
  | LogicalDelete _ path =>
      (Ok None,
       {| mounts := mounts v; store := delete path (store v);
          files := files v; health := health v |})
  | ReadFile filename =>
      match files v !! filename with
      | Some contents => (Ok contents, v)
      | None =>
          (Err ("open " +:+ filename +:+ ": no such file or directory"), v)
      end
  end.

Definition world : World := {| State := Vault; answer := reply |}.

(** A Vault just unsealed: nothing mounted, nothing stored. *)
Definition fresh : Vault := {|
  mounts := ∅; store := ∅; files := ∅;
  health := {| api.Initialized := true; api.Sealed := false |};
|}.

End sim.

(** ** What the statements speak of *)

(** The mount table has a mount whose path, a trailing [/] apart, is
    [gcp]. *)
Definition has_gcp_mount (mounts : gmap string api.MountOutput) : Prop :=
  exists path,
    is_Some (mounts !! path) /\ strings.TrimSuffix path "/" = "gcp".

Definition is_mount (c : Call) : bool :=
  match c with SysMount _ _ => true | _ => false end.

Definition is_write (c : Call) : bool :=
  match c with LogicalWrite _ _ _ => true | _ => false end.

(** The state the mount step of [Initialize] leaves, when it succeeds: the
    one it found if the mount is there, the one after the mount call
    otherwise. *)
Definition mounted (W : World) (mounts : gmap string api.MountOutput)
           (s : State W) : option (State W) :=
  if vault.gcpMountExists mounts then Some s
  else match answer W (SysMount "gcp" vault.gcpMountInput) s with
       | (None, s') => Some s'
       | (Some _, _) => None
       end.

(** A payload for [gcp/config] holds the three settings, the credentials
    when there are any, and nothing else. *)
Definition config_payload (c : vault.Client) (credentials : option string)
           (data : gmap string Value) : Prop :=
  data !! "ttl"
  = Some (VString (config.DefaultTTL (config.GCP (vault.config c))))
  /\ data !! "max_ttl"
     = Some (VString (config.MaxTTL (config.GCP (vault.config c))))
  /\ data !! "disable_automated_rotation"
     = Some (VBool (config.DisableAutomatedRotation
                      (config.GCP (vault.config c))))
  /\ data !! "credentials" = VString <$> credentials
  /\ forall key,
       key <> "ttl" -> key <> "max_ttl" ->
       key <> "disable_automated_rotation" -> key <> "credentials" ->
       data !! key = None.

(** The upstream answer has no body: a nil secret, or a secret with nil
    data. *)
Definition no_data (r : Result (option api.Secret)) : Prop :=
  r = Ok None \/ exists secret, r = Ok (Some secret) /\ api.Data secret = None.

(** What Vault answers to the request [GetToken] makes: a write carrying the
    TTL when there is one, a read otherwise. *)
Definition token_answer (W : World) (s : State W) (ctx : Context)
           (rolesetName ttl : string) : Result (option api.Secret) :=
  if negb (String.eqb ttl "")
  then fst (answer W (LogicalWrite ctx ("gcp/token/" +:+ rolesetName)
                                   (<["ttl" := VString ttl]> ∅)) s)
  else fst (answer W (LogicalRead ctx ("gcp/token/" +:+ rolesetName)) s).

(** The calls of the mount step of [Initialize] after the listing: none
    when the mount is there, the mount call otherwise. *)
Definition mount_step (mounts : gmap string api.MountOutput) : list Call :=
  if vault.gcpMountExists mounts then []
  else [SysMount "gcp" vault.gcpMountInput].

(** A field the token answer must have is absent or not of the asserted
    type; the same for the key answer. *)
Definition token_field_missing (d : gmap string Value) : Prop :=
  assert_string (d !! "token") = None
  \/ assert_string (d !! "token_ttl") = None
  \/ assert_float64 (d !! "expires_at_seconds") = None.

Definition key_field_missing (d : gmap string Value) : Prop :=
  assert_string (d !! "private_key_data") = None
  \/ assert_string (d !! "key_algorithm") = None
  \/ assert_string (d !! "key_type") = None
  \/ assert_string (d !! "key_id") = None.

(** The value the body of a create-roleset request gives a field of the
    [RolesetRequest]: the empty string when it gives none. *)
Definition body_field (c : gin.Context) (f : string) : string :=
  json.get (fst (json.bind "vault" "RolesetRequest"
                           vault.RolesetRequest_fields (gin.Body c))) f.

(** The response of the recovery wrapper. *)
Definition internal_server_error : handlers.Response :=
  handlers.JSON http.StatusInternalServerError
                (handlers.ErrorResponse "Internal server error" "").

(** The context of every call a run made satisfies [P]. *)
Definition every_ctx (P : Context -> Prop) (l : list Call) : Prop :=
  Forall (fun c => match call_ctx c with Some ctx => P ctx | None => True end)
         l.

(** A program that makes no call. *)
Definition quiet {A : Type} (p : Prog A) : Prop :=
  match p with Do _ _ => False | _ => True end.

(** A program that makes the one call [c]. *)
Definition single {A : Type} (c : Call) (p : Prog A) : Prop :=
  exists k, p = Do c k /\ forall r, quiet (k r).

(** The routes whose handler derives the context of its gateway call from
    the request: all but the create-roleset one. *)
Definition derives_context (r : main.Route) : bool :=
  match r with main.POST_rolesets_name => false | _ => true end.

(** The statuses of a request that succeeded. *)
Definition succeeded (resp : handlers.Response) : Prop :=
  handlers.Status resp = http.StatusOK
  \/ handlers.Status resp = http.StatusCreated.

(** ** Reference inputs *)

Definition gcp_mount : api.MountOutput :=
  {| api.MountType := "gcp";
     api.MountDescription := api.Description vault.gcpMountInput |}.

(** A mount table with the engine mounted, as Vault lists it. *)
Definition gcp_mounted : gmap string api.MountOutput :=
  <["gcp/" := gcp_mount]> ∅.

(** A client with the default settings, and one with a credentials file
    configured. *)
Definition client0 : vault.Client := {| vault.config := config.defaults |}.

Definition client_sa : vault.Client := {|
  vault.config := {|
    config.Server := config.Server config.defaults;
    config.Vault := config.Vault config.defaults;
    config.GCP := {|
      config.ProjectID := "p";
      config.ServiceAccountPath := "/etc/hcvapi/sa.json";
      config.DefaultTokenScopes :=
        config.DefaultTokenScopes (config.GCP config.defaults);
      config.DefaultTTL := "3600s";
      config.MaxTTL := "7200s";
      config.DisableAutomatedRotation := false;
    |};
  |};
|}.

(** The engine is mounted and the token may not write [gcp/config]. *)
Definition config_denied (c : Call) : Reply c :=
  match c with
  | SysListMounts => Ok gcp_mounted
  | LogicalWrite ctx path data => Err "permission denied"
  | c => blank c
  end.

(** The engine is mounted; the disk is empty. *)
Definition mounted_no_files (c : Call) : Reply c :=
  match c with
  | SysListMounts => Ok gcp_mounted
  | c => blank c
  end.

(** The small Vault after a first [Initialize]. *)
Definition provisioned : sim.Vault :=
  final (run sim.world (vault.Initialize client0 Background) sim.fresh).

(** Every answer is a secret with nil data. *)
Definition nil_data (c : Call) : Reply c :=
  match c with
  | LogicalWrite _ _ _ | LogicalRead _ _ | LogicalList _ _ =>
      Ok (Some {| api.Data := None |})
  | c => blank c
  end.

(** Vault answers a token request as it does on the wire: the expiry is a
    [json.Number]. *)
Definition token_on_the_wire : gmap string Value :=
  <["expires_at_seconds" := VNumber "1758020274"]>
  (<["token_ttl" := VString "29m59s"]>
  (<["token" := VString "ya29.c.c0ASRK0Ga"]> ∅)).

Definition wire (c : Call) : Reply c :=
  match c with
  | LogicalRead _ _ => Ok (Some {| api.Data := Some token_on_the_wire |})
  | c => blank c
  end.

(** Text with every apostrophe standing for a double quote. *)
Fixpoint quoted (s : string) : string :=
  match s with
  | EmptyString => EmptyString
  | String c s =>
      String (if Ascii.eqb c "'" then json.dquote else c) (quoted s)
  end.

Definition handler0 : handlers.Handler := {| handlers.vaultClient := client0 |}.

(** A request on a route with a [:name] segment, from connection 0. *)
Definition request (name body : string) : gin.Context := {|
  gin.Params := [("name", name)];
  gin.Body := body;
  gin.RequestContext := Inbound 0;
|}.

Definition body_r1 : string :=
  quoted "{'project':'p','secret_type':'access_token'}".

Definition body_r2 : string := quoted "{'secret_type':'bogus'}".

Definition body_with_bindings : string :=
  quoted "{'project':'p','secret_type':'access_token','bindings':'{}'}".

(** The client of connection 0 has gone away. *)
Definition gone (r : nat) : bool := Nat.eqb r 0.

(** ** Further vocabulary and inputs *)

(** The upstream paths of the service: a logical call goes under [gcp/],
    a mount call to [gcp]. *)
Definition under_gcp (c : Call) : bool :=
  match c with
  | LogicalWrite _ path _ | LogicalRead _ path | LogicalList _ path
  | LogicalDelete _ path => String.prefix "gcp/" path
  | SysMount path _ => String.eqb path "gcp"
  | SysListMounts | SysHealth _ | ReadFile _ => true
  end.

(** The routes with a [:name] segment. *)
Definition named (r : main.Route) : bool :=
  match r with
  | main.GET_health | main.GET_rolesets => false
  | _ => true
  end.

Definition refused : string :=
  "dial tcp 127.0.0.1:8200: connect: connection refused".

(** Vault cannot be reached. *)
Definition down (c : Call) : Reply c :=
  match c with
  | SysListMounts => Err refused
  | SysMount _ _ => Some refused
  | SysHealth _ => Err refused
  | LogicalWrite _ _ _ | LogicalRead _ _ | LogicalList _ _
  | LogicalDelete _ _ => Err refused
  | ReadFile filename => blank (ReadFile filename)
  end.

(** Nothing is mounted and the token may not mount. *)
Definition mount_denied (c : Call) : Reply c :=
  match c with
  | SysMount _ _ => Some "permission denied"
  | c => blank c
  end.

(** A token answer and a key answer with every field of the asserted
    type. *)
Definition token_decoded : gmap string Value :=
  <["expires_at_seconds" := VFloat64 (S754_finite false 1758020274 0)]>
  (<["token_ttl" := VString "29m59s"]>
  (<["token" := VString "ya29.c.c0ASRK0Ga"]> ∅)).

Definition key_decoded : gmap string Value :=
  <["key_id" := VString "k1"]>
  (<["key_type" := VString "TYPE_GOOGLE_CREDENTIALS_FILE"]>
  (<["key_algorithm" := VString "KEY_ALG_RSA_2048"]>
  (<["private_key_data" := VString "ZGF0YQ=="]> ∅))).

(** A Vault that issues them, and lists two rolesets. *)
Definition issuing (c : Call) : Reply c :=
  match c with
  | LogicalRead _ path =>
      if String.prefix "gcp/key/" path
      then Ok (Some {| api.Data := Some key_decoded |})
      else Ok (Some {| api.Data := Some token_decoded |})
  | LogicalWrite _ _ _ => Ok (Some {| api.Data := Some token_decoded |})
  | LogicalList _ _ =>
      Ok (Some {| api.Data :=
                    Some (<["keys" := VSlice [VString "r1"; VString "r2"]]> ∅)
               |})
  | c => blank c
  end.

(** A list answer with a key that is not a string. *)
Definition listing_numbers (c : Call) : Reply c :=
  match c with
  | LogicalList _ _ =>
      Ok (Some {| api.Data :=
                    Some (<["keys" := VSlice [VString "r1"; VNumber "2"]]> ∅)
               |})
  | c => blank c
  end.

Definition body_array_bindings : string :=
  quoted "{'project':'p','secret_type':'access_token','bindings':'[1]'}".

(** * Properties *)

(** ** Running programs *)

(** Unfolds the monad's notation down to [bind] and [Do]. *)
Ltac prog :=
  unfold mbind, Prog_bind, mret, Prog_ret, call in *; cbn [bind] in *.

Lemma run_ret {A : Type} (W : World) (a : A) (s : State W) :
  run W (Ret a) s = {| outcome := Returned a; final := s; calls := [] |}.
Proof. reflexivity. Qed.

Lemma run_do {A : Type} (W : World) (c : Call) (k : Reply c -> Prog A)
      (s : State W) :
  run W (Do c k) s
  = {| outcome := outcome (run W (k (fst (answer W c s))) (snd (answer W c s)));
       final := final (run W (k (fst (answer W c s))) (snd (answer W c s)));
       calls := c :: calls (run W (k (fst (answer W c s)))
                                (snd (answer W c s))) |}.
Proof. simpl. destruct (answer W c s); reflexivity. Qed.

Lemma run_bind_calls {A B : Type} (W : World) (p : Prog A) (f : A -> Prog B)
      (s : State W) :
  calls (run W (bind p f) s)
  = (calls (run W p s)
     ++ match outcome (run W p s) with
        | Returned a => calls (run W (f a) (final (run W p s)))
        | Panicked _ => []
        end)%list.
Proof.
  revert s. induction p as [a | v | c k IH]; intros s.
  - reflexivity.
  - reflexivity.
  - cbn [bind]. rewrite !run_do. cbn [calls outcome final].
    rewrite IH. reflexivity.
Qed.

Lemma run_bind_outcome {A B : Type} (W : World) (p : Prog A)
      (f : A -> Prog B) (s : State W) :
  outcome (run W (bind p f) s)
  = match outcome (run W p s) with
    | Returned a => outcome (run W (f a) (final (run W p s)))
    | Panicked v => Panicked v
    end.
Proof.
  revert s. induction p as [a | v | c k IH]; intros s.
  - reflexivity.
  - reflexivity.
  - cbn [bind]. rewrite !run_do. cbn [calls outcome final].
    rewrite IH. reflexivity.
Qed.

(** ** The mount table *)

Lemma gcpMountExists_spec (mounts : gmap string api.MountOutput) :
  vault.gcpMountExists mounts = true <-> has_gcp_mount mounts.
Proof.
  unfold vault.gcpMountExists, has_gcp_mount.
  rewrite existsb_exists. split.
  - intros (path & Hin & Heq). exists path. split.
    + apply in_map_iff in Hin. destruct Hin as ([p mo] & Hp & Hin).
      simpl in Hp. subst p.
      apply list_elem_of_In, elem_of_map_to_list in Hin. eauto.
    + apply String.eqb_eq. exact Heq.
  - intros (path & [mo Hmo] & Heq). exists path. split.
    + apply in_map_iff. exists (path, mo). split; [reflexivity |].
      apply list_elem_of_In, elem_of_map_to_list. exact Hmo.
    + apply String.eqb_eq. exact Heq.
Qed.

Lemma gcpMountExists_false (mounts : gmap string api.MountOutput) :
  vault.gcpMountExists mounts = false <-> ~ has_gcp_mount mounts.
Proof.
  rewrite <- gcpMountExists_spec.
  destruct (vault.gcpMountExists mounts); split; congruence.
Qed.

(** ** The engine configuration *)

Lemma configData_payload (c : vault.Client) :
  config_payload c None (vault.configData c).
Proof.
  unfold config_payload, vault.configData.
  repeat split; try reflexivity.
  intros key H1 H2 H3 _.
  rewrite !lookup_insert_ne by congruence. apply lookup_empty.
Qed.

Lemma configData_credentials_payload (c : vault.Client) (credentials : string) :
  config_payload c (Some credentials)
    (<["credentials" := VString credentials]> (vault.configData c)).
Proof.
  unfold config_payload, vault.configData.
  repeat split; try reflexivity.
  intros key H1 H2 H3 H4.
  rewrite !lookup_insert_ne by congruence. apply lookup_empty.
Qed.

(** [configureGCPEngine] makes no mount call. *)
Lemma configureGCPEngine_no_mount (W : World) (c : vault.Client)
      (ctx : Context) (s : State W) :
  forallb (fun x => negb (is_mount x))
          (calls (run W (vault.configureGCPEngine c ctx) s)) = true.
Proof.
  unfold vault.configureGCPEngine, vault.writeConfig. prog.
  destruct (negb _); rewrite !run_do; cbn [calls forallb is_mount negb andb].
  - destruct (fst (answer W (ReadFile _) s)); cbn [bind].
    + rewrite run_do. cbn [calls forallb is_mount negb andb].
      destruct (fst (answer W _ _)); reflexivity.
    + reflexivity.
  - destruct (fst (answer W _ s)); reflexivity.
Qed.

(** ** [Initialize] *)

(** What [Initialize] does once the mount step has succeeded: it runs
    [configureGCPEngine] in the state that step left, and returns what it
    returns. *)
Lemma Initialize_run (W : World) (c : vault.Client) (ctx : Context)
      (s s1 s2 : State W) (mounts : gmap string api.MountOutput) :
  answer W SysListMounts s = (Ok mounts, s1) ->
  mounted W mounts s1 = Some s2 ->
  calls (run W (vault.Initialize c ctx) s)
  = (SysListMounts
     :: (if vault.gcpMountExists mounts then []
         else [SysMount "gcp" vault.gcpMountInput])
     ++ calls (run W (vault.configureGCPEngine c ctx) s2))%list
  /\ outcome (run W (vault.Initialize c ctx) s)
     = match outcome (run W (vault.configureGCPEngine c ctx) s2) with
       | Returned None => Returned None
       | Returned (Some err) =>
           Returned (Some ("failed to configure GCP engine: " +:+ err))
       | Panicked v => Panicked v
       end.
Proof.
  intros Hlist Hmount. unfold vault.Initialize, mounted in *. prog.
  rewrite run_do, Hlist. cbn [fst snd calls outcome].
  destruct (vault.gcpMountExists mounts); cbn [negb bind].
  - injection Hmount as ->.
    rewrite run_bind_calls, run_bind_outcome.
    destruct (outcome (run W (vault.configureGCPEngine c ctx) s2))
      as [[err |] | v]; cbn; rewrite ?app_nil_r; split; reflexivity.
  - rewrite run_do. cbn [fst snd calls outcome].
    destruct (answer W (SysMount "gcp" vault.gcpMountInput) s1)
      as [[err |] s']; [discriminate |].
    injection Hmount as ->. cbn [fst snd bind].
    rewrite run_bind_calls, run_bind_outcome.
    destruct (outcome (run W (vault.configureGCPEngine c ctx) s2))
      as [[err |] | v]; cbn; rewrite ?app_nil_r; split; reflexivity.
Qed.

(** The calls of [Initialize] when the mount call fails. *)
Lemma Initialize_mount_failure (W : World) (c : vault.Client) (ctx : Context)
      (s s1 : State W) (mounts : gmap string api.MountOutput) :
  answer W SysListMounts s = (Ok mounts, s1) ->
  mounted W mounts s1 = None ->
  calls (run W (vault.Initialize c ctx) s)
  = [SysListMounts; SysMount "gcp" vault.gcpMountInput]
  /\ vault.gcpMountExists mounts = false.
Proof.
  intros Hlist Hmount. unfold vault.Initialize, mounted in *. prog.
  rewrite run_do, Hlist. cbn [fst snd calls outcome].
  destruct (vault.gcpMountExists mounts); [discriminate |].
  cbn [negb bind]. rewrite run_do. cbn [fst snd calls outcome].
  destruct (answer W (SysMount "gcp" vault.gcpMountInput) s1)
    as [[err |] s']; [| discriminate].
  split; reflexivity.
Qed.

Lemma mounted_present (W : World) (mounts : gmap string api.MountOutput)
      (s : State W) :
  has_gcp_mount mounts -> mounted W mounts s = Some s.
Proof.
  intros H. apply gcpMountExists_spec in H. unfold mounted. rewrite H.
  reflexivity.
Qed.

(** C1, amended.  When the mount table the listing call returns has a mount
    whose path, a trailing [/] apart, is [gcp], [Initialize] makes no mount
    call: after the listing it makes the calls of the engine configuration
    and nothing else, and it returns success exactly when the engine
    configuration does.  When the table has no such mount, the call after
    the listing enables an engine of type [gcp] at path [gcp]; and a mount
    call is only ever made in that case, and only that one. *)
Theorem Initialize_mount_idempotent (W : World) (c : vault.Client)
        (ctx : Context) (s s1 : State W)
        (mounts : gmap string api.MountOutput) :
  answer W SysListMounts s = (Ok mounts, s1) ->
  (has_gcp_mount mounts ->
   calls (run W (vault.Initialize c ctx) s)
   = SysListMounts :: calls (run W (vault.configureGCPEngine c ctx) s1)
   /\ forallb (fun x => negb (is_mount x))
              (calls (run W (vault.Initialize c ctx) s)) = true
   /\ (outcome (run W (vault.Initialize c ctx) s) = Returned None
       <-> outcome (run W (vault.configureGCPEngine c ctx) s1)
           = Returned None))
  /\ (~ has_gcp_mount mounts ->
      exists rest,
        calls (run W (vault.Initialize c ctx) s)
        = SysListMounts :: SysMount "gcp" vault.gcpMountInput :: rest
        /\ api.Type_ vault.gcpMountInput = "gcp")
  /\ (forall path input,
        In (SysMount path input) (calls (run W (vault.Initialize c ctx) s)) ->
        ~ has_gcp_mount mounts
        /\ path = "gcp" /\ input = vault.gcpMountInput).
Proof.
  intros Hlist.
  assert (Hcfg : forall s2 x,
             In x (calls (run W (vault.configureGCPEngine c ctx) s2)) ->
             is_mount x = false).
  { intros s2 x Hin.
    pose proof (configureGCPEngine_no_mount W c ctx s2) as Hall.
    rewrite forallb_forall in Hall. apply Hall in Hin.
    destruct (is_mount x); [discriminate | reflexivity]. }
  split; [| split].
  - intros Hhas.
    destruct (Initialize_run W c ctx s s1 s1 mounts Hlist
                (mounted_present W mounts s1 Hhas)) as [Hcalls Hout].
    apply gcpMountExists_spec in Hhas. rewrite Hhas in Hcalls.
    cbn [app] in Hcalls. rewrite Hcalls, Hout. split; [reflexivity |].
    split.
    + cbn [forallb is_mount negb andb]. apply configureGCPEngine_no_mount.
    + destruct (outcome (run W (vault.configureGCPEngine c ctx) s1))
        as [[err |] | v]; split; congruence.
  - intros Hnot. apply gcpMountExists_false in Hnot.
    destruct (mounted W mounts s1) as [s2 |] eqn:Hm.
    + destruct (Initialize_run W c ctx s s1 s2 mounts Hlist Hm)
        as [Hcalls _].
      rewrite Hnot in Hcalls. cbn [app] in Hcalls. eauto.
    + destruct (Initialize_mount_failure W c ctx s s1 mounts Hlist Hm)
        as [Hcalls _].
      rewrite Hcalls. eauto.
  - intros path input Hin.
    destruct (mounted W mounts s1) as [s2 |] eqn:Hm.
    + destruct (Initialize_run W c ctx s s1 s2 mounts Hlist Hm)
        as [Hcalls _].
      rewrite Hcalls in Hin. clear Hcalls.
      destruct (vault.gcpMountExists mounts) eqn:Hex; cbn [app] in Hin.
      * destruct Hin as [Hin | Hin]; [discriminate |].
        apply Hcfg in Hin. discriminate.
      * apply gcpMountExists_false in Hex.
        destruct Hin as [Hin | [Hin | Hin]]; [discriminate | |].
        -- injection Hin as <- <-. auto.
        -- apply Hcfg in Hin. discriminate.
    + destruct (Initialize_mount_failure W c ctx s s1 mounts Hlist Hm)
        as [Hcalls Hex].
      rewrite Hcalls in Hin. apply gcpMountExists_false in Hex.
      destruct Hin as [Hin | [Hin | []]]; [discriminate |].
      injection Hin as <- <-. auto.
Qed.

(** C1 as the specification words it does not hold.  The engine is
    mounted, the listing call succeeds, and [Initialize] returns a failure,
    because the write of the engine configuration is refused. *)
Lemma Initialize_mounted_yet_failing :
  fst (answer (fixed config_denied) SysListMounts tt) = Ok gcp_mounted
  /\ has_gcp_mount gcp_mounted
  /\ outcome (run (fixed config_denied)
                  (vault.Initialize client0 Background) tt)
     = Returned
         (Some ("failed to configure GCP engine: "
                +:+ "failed to configure GCP engine: permission denied")).
Proof.
  split; [reflexivity |]. split.
  - exists "gcp/". split; [| reflexivity].
    exists gcp_mount. reflexivity.
  - vm_compute. reflexivity.
Qed.

(** A second [Initialize] against the small Vault the first one
    provisioned makes no mount call. *)
Lemma Initialize_mount_idempotent_witness :
  answer sim.world SysListMounts provisioned
  = (Ok (sim.mounts provisioned), provisioned)
  /\ has_gcp_mount (sim.mounts provisioned)
  /\ forallb (fun x => negb (is_mount x))
             (calls (run sim.world (vault.Initialize client0 Background)
                         provisioned)) = true.
Proof.
  assert (Hhas : has_gcp_mount (sim.mounts provisioned)).
  { apply gcpMountExists_spec. vm_compute. reflexivity. }
  split; [reflexivity |]. split; [exact Hhas |].
  exact (proj1 (proj2 (proj1
           (Initialize_mount_idempotent sim.world client0 Background
              provisioned provisioned (sim.mounts provisioned) eq_refl)
           Hhas))).
Defined.

(** ** [configureGCPEngine] after the mount step *)

Lemma configureGCPEngine_run (W : World) (c : vault.Client) (ctx : Context)
      (s : State W) :
  let path := config.ServiceAccountPath (config.GCP (vault.config c)) in
  (path = "" ->
   calls (run W (vault.configureGCPEngine c ctx) s)
   = [LogicalWrite ctx "gcp/config" (vault.configData c)])
  /\ (path <> "" ->
      forall credentials,
        fst (answer W (ReadFile path) s) = Ok credentials ->
        calls (run W (vault.configureGCPEngine c ctx) s)
        = [ReadFile path;
           LogicalWrite ctx "gcp/config"
             (<["credentials" := VString credentials]> (vault.configData c))])
  /\ (path <> "" ->
      forall err,
        fst (answer W (ReadFile path) s) = Err err ->
        calls (run W (vault.configureGCPEngine c ctx) s) = [ReadFile path]
        /\ outcome (run W (vault.configureGCPEngine c ctx) s)
           = Returned (Some ("failed to read service account file: "
                             +:+ err))).
Proof.
  intros path. unfold vault.configureGCPEngine, vault.writeConfig. prog.
  fold path. split; [| split].
  - intros ->. cbn [String.eqb negb]. rewrite run_do. cbn [calls].
    destruct (fst (answer W _ s)); reflexivity.
  - intros Hne credentials Hread.
    apply String.eqb_neq in Hne. rewrite Hne. cbn [negb].
    rewrite run_do, Hread. cbn [calls bind]. rewrite run_do. cbn [calls].
    destruct (fst (answer W (LogicalWrite _ _ _) _)); reflexivity.
  - intros Hne err Hread.
    apply String.eqb_neq in Hne. rewrite Hne. cbn [negb].
    rewrite run_do, Hread. cbn [calls outcome bind]. split; reflexivity.
Qed.

(** C2, amended.  After every successful run of the mount step of
    [Initialize], the mount there or just made, the engine configuration is
    run.  With no credentials file configured, it is the write to
    [gcp/config] of the three settings and nothing else.  With one
    configured and readable, it is the read of the file, then the write of
    the three settings and of the file's contents as [credentials].  With
    one configured that cannot be read, no write is made and [Initialize]
    returns the failure. *)
Theorem Initialize_configures_engine (W : World) (c : vault.Client)
        (ctx : Context) (s s1 s2 : State W)
        (mounts : gmap string api.MountOutput) :
  answer W SysListMounts s = (Ok mounts, s1) ->
  mounted W mounts s1 = Some s2 ->
  (config.ServiceAccountPath (config.GCP (vault.config c)) = "" ->
   calls (run W (vault.Initialize c ctx) s)
   = (SysListMounts :: mount_step mounts
      ++ [LogicalWrite ctx "gcp/config" (vault.configData c)])%list
   /\ config_payload c None (vault.configData c))
  /\ (config.ServiceAccountPath (config.GCP (vault.config c)) <> "" ->
      forall credentials,
        fst (answer W (ReadFile (config.ServiceAccountPath
                                   (config.GCP (vault.config c)))) s2)
        = Ok credentials ->
        exists data,
          calls (run W (vault.Initialize c ctx) s)
          = (SysListMounts :: mount_step mounts
             ++ [ReadFile (config.ServiceAccountPath
                             (config.GCP (vault.config c)));
                 LogicalWrite ctx "gcp/config" data])%list
          /\ config_payload c (Some credentials) data)
  /\ (config.ServiceAccountPath (config.GCP (vault.config c)) <> "" ->
      forall err,
        fst (answer W (ReadFile (config.ServiceAccountPath
                                   (config.GCP (vault.config c)))) s2)
        = Err err ->
        forallb (fun x => negb (is_write x))
                (calls (run W (vault.Initialize c ctx) s)) = true
        /\ outcome (run W (vault.Initialize c ctx) s)
           = Returned
               (Some ("failed to configure GCP engine: "
                      +:+ "failed to read service account file: " +:+ err))).
Proof.
  intros Hlist Hmount.
  destruct (Initialize_run W c ctx s s1 s2 mounts Hlist Hmount)
    as [Hcalls Hout].
  destruct (configureGCPEngine_run W c ctx s2) as (Hnone & Hread & Hfail).
  fold (mount_step mounts) in Hcalls.
  split; [| split].
  - intros Hpath. rewrite Hcalls, (Hnone Hpath).
    split; [reflexivity | apply configData_payload].
  - intros Hpath credentials Hfile.
    eexists. rewrite Hcalls, (Hread Hpath credentials Hfile).
    split; [reflexivity | apply configData_credentials_payload].
  - intros Hpath err Hfile.
    destruct (Hfail Hpath err Hfile) as [Hc Ho].
    rewrite Hcalls, Hout, Hc, Ho. split; [| reflexivity].
    unfold mount_step. destruct (vault.gcpMountExists mounts); reflexivity.
Qed.

(** C2 as the specification words it does not hold.  The mount step
    succeeds (the engine is mounted), a credentials file is configured and
    cannot be read: [Initialize] makes no write to [gcp/config]. *)
Lemma Initialize_unreadable_credentials_no_write :
  answer (fixed mounted_no_files) SysListMounts tt = (Ok gcp_mounted, tt)
  /\ mounted (fixed mounted_no_files) gcp_mounted tt = Some tt
  /\ calls (run (fixed mounted_no_files)
                (vault.Initialize client_sa Background) tt)
     = [SysListMounts; ReadFile "/etc/hcvapi/sa.json"].
Proof.
  split; [reflexivity |]. split; vm_compute; reflexivity.
Qed.

(** On a fresh small Vault with default settings, [Initialize] lists the
    mounts, mounts the engine and writes the three settings. *)
Lemma Initialize_configures_engine_witness :
  answer sim.world SysListMounts sim.fresh = (Ok ∅, sim.fresh)
  /\ calls (run sim.world (vault.Initialize client0 Background) sim.fresh)
     = [SysListMounts; SysMount "gcp" vault.gcpMountInput;
        LogicalWrite Background "gcp/config" (vault.configData client0)]
  /\ config_payload client0 None (vault.configData client0).
Proof.
  split; [reflexivity |].
  exact (proj1 (Initialize_configures_engine sim.world client0 Background
                  sim.fresh sim.fresh
                  (snd (sim.reply (SysMount "gcp" vault.gcpMountInput)
                                  sim.fresh))
                  ∅ eq_refl eq_refl)
               eq_refl).
Defined.

(** ** [CreateRoleset] *)

Lemma rolesetData_token_scopes (c : vault.Client) (req : vault.RolesetRequest) :
  vault.rolesetData c req !! "token_scopes"
  = if negb (String.eqb (vault.TokenScopes req) "")
    then Some (VString (vault.TokenScopes req))
    else if String.eqb (vault.SecretType req) "access_token"
         then Some (VString (config.DefaultTokenScopes
                               (config.GCP (vault.config c))))
         else None.
Proof.
  unfold vault.rolesetData.
  destruct (negb (String.eqb (vault.MaxTTL req) ""));
    destruct (negb (String.eqb (vault.TTL req) ""));
    destruct (0 <? String.length (vault.Bindings req))%nat;
    rewrite ?lookup_insert_ne by discriminate;
    destruct (negb (String.eqb (vault.TokenScopes req) ""));
    try destruct (String.eqb (vault.SecretType req) "access_token");
    rewrite ?lookup_insert_eq; try reflexivity;
    rewrite ?lookup_insert_ne by discriminate; apply lookup_empty.
Qed.

(** C3.  [CreateRoleset] makes one call, the write of its payload to
    [gcp/roleset/{name}], and the payload's [token_scopes] is: the caller's
    scopes when they are not empty; otherwise the configured default scopes
    when the secret type is [access_token]; otherwise absent. *)
Theorem CreateRoleset_token_scopes (W : World) (c : vault.Client)
        (ctx : Context) (name : string) (req : vault.RolesetRequest)
        (s : State W) :
  exists data,
    calls (run W (vault.CreateRoleset c ctx name req) s)
    = [LogicalWrite ctx ("gcp/roleset/" +:+ name) data]
    /\ (vault.TokenScopes req <> "" ->
        data !! "token_scopes" = Some (VString (vault.TokenScopes req)))
    /\ (vault.TokenScopes req = "" ->
        vault.SecretType req = "access_token" ->
        data !! "token_scopes"
        = Some (VString (config.DefaultTokenScopes
                           (config.GCP (vault.config c)))))
    /\ (vault.TokenScopes req = "" ->
        vault.SecretType req <> "access_token" ->
        data !! "token_scopes" = None).
Proof.
  exists (vault.rolesetData c req). split.
  - unfold vault.CreateRoleset. prog. rewrite run_do. cbn [calls].
    destruct (fst (answer W _ s)); reflexivity.
  - rewrite rolesetData_token_scopes. repeat split.
    + intros H. apply String.eqb_neq in H. rewrite H. reflexivity.
    + intros -> ->. reflexivity.
    + intros -> H. apply String.eqb_neq in H. rewrite H. reflexivity.
Qed.

(** ** Answers without a body *)

(** C6.  When the upstream answer is a nil secret or has nil data,
    [GetToken] returns the error [no token data returned] and
    [GetServiceAccountKey] the error [no key data returned]: neither
    returns a result. *)
Theorem no_data_is_an_error (W : World) (c : vault.Client) (ctx : Context)
        (rolesetName ttl : string) (s : State W) :
  (no_data (token_answer W s ctx rolesetName ttl) ->
   outcome (run W (vault.GetToken c ctx rolesetName ttl) s)
   = Returned (Err "no token data returned"))
  /\ (no_data (fst (answer W (LogicalRead ctx ("gcp/key/" +:+ rolesetName))
                           s)) ->
      outcome (run W (vault.GetServiceAccountKey c ctx rolesetName) s)
      = Returned (Err "no key data returned")).
Proof.
  split.
  - unfold token_answer, vault.GetToken. prog.
    destruct (negb (String.eqb ttl "")); cbn [bind];
      rewrite run_do; cbn [outcome];
      intros [-> | (secret & -> & Hnil)]; cbn; rewrite ?Hnil; reflexivity.
  - unfold vault.GetServiceAccountKey. prog.
    rewrite run_do. cbn [outcome].
    intros [-> | (secret & -> & Hnil)]; cbn; rewrite ?Hnil; reflexivity.
Qed.

(** C7.  When the upstream answer to the listing is a nil secret or has nil
    data, [ListRolesets] succeeds with the empty sequence of names. *)
Theorem ListRolesets_no_data_is_empty (W : World) (c : vault.Client)
        (ctx : Context) (s : State W) :
  no_data (fst (answer W (LogicalList ctx "gcp/roleset") s)) ->
  outcome (run W (vault.ListRolesets c ctx) s) = Returned (Ok []).
Proof.
  unfold vault.ListRolesets. prog. rewrite run_do. cbn [outcome].
  intros [-> | (secret & -> & Hnil)]; cbn; rewrite ?Hnil; reflexivity.
Qed.

(** ** [HealthCheck] *)

(** C9.  [HealthCheck] probes under a 5 s timeout and returns a failure
    exactly when the probe fails, or reports Vault as not initialized, or
    reports it as sealed.  So a probe that succeeds and reports sealed is a
    failure, and one that reports initialized and unsealed is a success. *)
Theorem HealthCheck_fails_exactly (W : World) (c : vault.Client)
        (ctx : Context) (s : State W) :
  exists verdict,
    outcome (run W (vault.HealthCheck c ctx) s) = Returned verdict
    /\ calls (run W (vault.HealthCheck c ctx) s)
       = [SysHealth (WithTimeout ctx (5 * Second))]
    /\ (is_Some verdict <->
        match fst (answer W (SysHealth (WithTimeout ctx (5 * Second))) s) with
        | Err _ => True
        | Ok health =>
            api.Initialized health = false \/ api.Sealed health = true
        end)
    /\ (forall health,
          fst (answer W (SysHealth (WithTimeout ctx (5 * Second))) s)
          = Ok health ->
          (api.Sealed health = true -> is_Some verdict)
          /\ (api.Initialized health = true -> api.Sealed health = false ->
              verdict = None)).
Proof.
  unfold vault.HealthCheck. prog. rewrite run_do. cbn [outcome calls].
  destruct (fst (answer W (SysHealth (WithTimeout ctx (5 * Second))) s))
    as [[init sealed] | err]; cbn [api.Initialized api.Sealed].
  - destruct init, sealed; cbn; eexists;
      (split; [reflexivity |]); (split; [reflexivity |]); split.
    all: try (split;
              [ intros Hs;
                first [ left; reflexivity | right; reflexivity
                      | exfalso; exact (is_Some_None Hs) ]
              | intros Hd;
                first [ eexists; reflexivity
                      | destruct Hd as [Hd | Hd]; discriminate Hd ] ]).
    all: intros health Heq; injection Heq as <-; cbn; split;
      [ intros Hsealed; first [ eexists; reflexivity | discriminate Hsealed ]
      | intros Hi Hu; first [ reflexivity | discriminate ] ].
  - cbn. eexists. split; [reflexivity |]. split; [reflexivity |]. split.
    + split; eauto.
    + intros health [=].
Qed.

Lemma no_data_is_an_error_witness :
  outcome (run (fixed blank) (vault.GetToken client0 Background "r1" "") tt)
  = Returned (Err "no token data returned")
  /\ outcome (run (fixed nil_data)
                  (vault.GetToken client0 Background "r1" "1800s") tt)
     = Returned (Err "no token data returned")
  /\ outcome (run (fixed nil_data)
                  (vault.GetServiceAccountKey client0 Background "r1") tt)
     = Returned (Err "no key data returned").
Proof.
  split; [| split].
  - apply (proj1 (no_data_is_an_error (fixed blank) client0 Background
                    "r1" "" tt)).
    left. reflexivity.
  - apply (proj1 (no_data_is_an_error (fixed nil_data) client0 Background
                    "r1" "1800s" tt)).
    right. eexists. split; reflexivity.
  - apply (proj2 (no_data_is_an_error (fixed nil_data) client0 Background
                    "r1" "" tt)).
    right. eexists. split; reflexivity.
Defined.

Lemma ListRolesets_no_data_is_empty_witness :
  outcome (run sim.world (vault.ListRolesets client0 Background) provisioned)
  = Returned (Ok [])
  /\ outcome (run (fixed nil_data) (vault.ListRolesets client0 Background) tt)
     = Returned (Ok []).
Proof.
  split.
  - apply (ListRolesets_no_data_is_empty sim.world client0 Background
             provisioned).
    left. vm_compute. reflexivity.
  - apply (ListRolesets_no_data_is_empty (fixed nil_data) client0 Background
             tt).
    right. eexists. split; reflexivity.
Defined.

(** ** Panics and the recovery wrapper *)

Lemma run_recovering_outcome {A : Type} (W : World)
      (handle : string -> Prog A) (p : Prog A) (s : State W) :
  outcome (run W (recovering handle p) s)
  = match outcome (run W p s) with
    | Returned a => Returned a
    | Panicked v => outcome (run W (handle v) (final (run W p s)))
    end.
Proof.
  revert s. induction p as [a | v | c k IH]; intros s.
  - reflexivity.
  - reflexivity.
  - cbn [recovering]. rewrite !run_do. cbn [outcome final]. apply IH.
Qed.

Lemma run_recovering_calls {A : Type} (W : World)
      (handle : string -> Prog A) (p : Prog A) (s : State W) :
  calls (run W (recovering handle p) s)
  = (calls (run W p s)
     ++ match outcome (run W p s) with
        | Returned _ => []
        | Panicked v => calls (run W (handle v) (final (run W p s)))
        end)%list.
Proof.
  revert s. induction p as [a | v | c k IH]; intros s.
  - reflexivity.
  - reflexivity.
  - cbn [recovering]. rewrite !run_do. cbn [outcome final calls].
    rewrite IH. reflexivity.
Qed.

(** A request whose handler panics is answered by the recovery wrapper. *)
Lemma serve_panicked (W : World) (h : handlers.Handler) (r : main.Route)
      (c : gin.Context) (s : State W) (v : string) :
  outcome (run W (main.handler h r c) s) = Panicked v ->
  outcome (run W (main.serve h r c) s) = Returned internal_server_error.
Proof.
  intros Hp. unfold main.serve, handlers.ErrorHandlingMiddleware,
    handlers.LoggingMiddleware.
  rewrite run_recovering_outcome, Hp. reflexivity.
Qed.

(** A request whose handler returns is answered by the handler, and the
    chain makes the handler's calls. *)
Lemma serve_returned (W : World) (h : handlers.Handler) (r : main.Route)
      (c : gin.Context) (s : State W) (resp : handlers.Response) :
  outcome (run W (main.handler h r c) s) = Returned resp ->
  outcome (run W (main.serve h r c) s) = Returned resp
  /\ calls (run W (main.serve h r c) s) = calls (run W (main.handler h r c) s).
Proof.
  intros Hr. unfold main.serve, handlers.ErrorHandlingMiddleware,
    handlers.LoggingMiddleware.
  rewrite run_recovering_outcome, run_recovering_calls, Hr.
  rewrite app_nil_r. split; reflexivity.
Qed.

Lemma GetToken_panics (W : World) (c : vault.Client) (ctx : Context)
      (rolesetName ttl : string) (s : State W) (secret : api.Secret)
      (d : gmap string Value) :
  token_answer W s ctx rolesetName ttl = Ok (Some secret) ->
  api.Data secret = Some d ->
  token_field_missing d ->
  exists v, outcome (run W (vault.GetToken c ctx rolesetName ttl) s)
            = Panicked v.
Proof.
  unfold token_answer, token_field_missing, vault.GetToken. prog.
  intros Hanswer Hdata Hmissing.
  assert (Hpanic : exists v,
             outcome (run W
               (vault.assertion assert_string "string" (d !! "token")
                  (fun token =>
                vault.assertion assert_string "string" (d !! "token_ttl")
                  (fun token_ttl =>
                vault.assertion assert_float64 "float64"
                                (d !! "expires_at_seconds")
                  (fun expires =>
                Ret (Ok {| vault.Token := token;
                           vault.TokenTTL := token_ttl;
                           vault.ExpiresAtSeconds :=
                             int64_of_float64 expires |})))))
               (snd (if negb (String.eqb ttl "")
                     then answer W (LogicalWrite ctx
                                      ("gcp/token/" +:+ rolesetName)
                                      (<["ttl" := VString ttl]> ∅)) s
                     else answer W (LogicalRead ctx
                                      ("gcp/token/" +:+ rolesetName)) s)))
             = Panicked v).
  { unfold vault.assertion.
    destruct (assert_string (d !! "token")); [| cbn; eauto].
    destruct (assert_string (d !! "token_ttl")); [| cbn; eauto].
    destruct (assert_float64 (d !! "expires_at_seconds")); [| cbn; eauto].
    destruct Hmissing as [H | [H | H]]; discriminate H. }
  destruct (negb (String.eqb ttl "")); cbn [bind] in *;
    rewrite run_do, Hanswer; cbn [outcome]; rewrite Hdata; exact Hpanic.
Qed.

Lemma GetServiceAccountKey_panics (W : World) (c : vault.Client)
      (ctx : Context) (rolesetName : string) (s : State W)
      (secret : api.Secret) (d : gmap string Value) :
  fst (answer W (LogicalRead ctx ("gcp/key/" +:+ rolesetName)) s)
  = Ok (Some secret) ->
  api.Data secret = Some d ->
  key_field_missing d ->
  exists v, outcome (run W (vault.GetServiceAccountKey c ctx rolesetName) s)
            = Panicked v.
Proof.
  unfold key_field_missing, vault.GetServiceAccountKey. prog.
  intros Hanswer Hdata Hmissing.
  rewrite run_do, Hanswer. cbn [outcome]. rewrite Hdata.
  unfold vault.assertion.
  destruct (assert_string (d !! "private_key_data")); [| cbn; eauto].
  destruct (assert_string (d !! "key_algorithm")); [| cbn; eauto].
  destruct (assert_string (d !! "key_type")); [| cbn; eauto].
  destruct (assert_string (d !! "key_id")); [| cbn; eauto].
  destruct Hmissing as [H | [H | [H | H]]]; discriminate H.
Qed.

(** C10.  When the answer to a token or key request has data in which a
    field the operation reads is absent or not of the asserted type, the
    operation does not return an error: the type assertion panics.  The
    handler lets the panic through, and the recovery wrapper answers 500
    with the error [Internal server error] and no details. *)
Theorem malformed_answer_is_a_generic_500 (W : World) (h : handlers.Handler)
        (c : gin.Context) (s : State W) (secret : api.Secret)
        (d : gmap string Value) :
  gin.Param c "name" <> "" ->
  api.Data secret = Some d ->
  (token_answer W s (WithTimeout (gin.RequestContext c) (30 * Second))
                (gin.Param c "name")
                (handlers.TTL (fst (handlers.ShouldBindJSON_TokenRequest c)))
   = Ok (Some secret) ->
   token_field_missing d ->
   (exists v,
      outcome (run W (vault.GetToken (handlers.vaultClient h)
                        (WithTimeout (gin.RequestContext c) (30 * Second))
                        (gin.Param c "name")
                        (handlers.TTL
                           (fst (handlers.ShouldBindJSON_TokenRequest c)))) s)
      = Panicked v)
   /\ outcome (run W (main.serve h main.POST_tokens_name c) s)
      = Returned internal_server_error)
  /\ (fst (answer W (LogicalRead
                       (WithTimeout (gin.RequestContext c) (30 * Second))
                       ("gcp/key/" +:+ gin.Param c "name")) s)
      = Ok (Some secret) ->
      key_field_missing d ->
      (exists v,
         outcome (run W (vault.GetServiceAccountKey (handlers.vaultClient h)
                           (WithTimeout (gin.RequestContext c) (30 * Second))
                           (gin.Param c "name")) s)
         = Panicked v)
      /\ outcome (run W (main.serve h main.POST_keys_name c) s)
         = Returned internal_server_error).
Proof.
  intros Hname Hdata. apply String.eqb_neq in Hname. split.
  - intros Hanswer Hmissing.
    destruct (GetToken_panics W (handlers.vaultClient h) _ _ _ s secret d
                Hanswer Hdata Hmissing) as [v Hv].
    split; [eauto |].
    apply serve_panicked with (v := v).
    unfold main.handler, handlers.GetAccessToken. rewrite Hname. prog.
    rewrite run_bind_outcome, Hv. reflexivity.
  - intros Hanswer Hmissing.
    destruct (GetServiceAccountKey_panics W (handlers.vaultClient h) _ _ s
                secret d Hanswer Hdata Hmissing) as [v Hv].
    split; [eauto |].
    apply serve_panicked with (v := v).
    unfold main.handler, handlers.GetServiceAccountKey. rewrite Hname. prog.
    rewrite run_bind_outcome, Hv. reflexivity.
Qed.

(** A token answer as Vault sends it, its expiry a [json.Number], is such
    an answer. *)
Lemma malformed_answer_is_a_generic_500_witness :
  token_field_missing token_on_the_wire
  /\ outcome (run (fixed wire)
                  (main.serve handler0 main.POST_tokens_name
                              (request "r1" "")) tt)
     = Returned internal_server_error.
Proof.
  assert (Hmissing : token_field_missing token_on_the_wire).
  { right. right. reflexivity. }
  split; [exact Hmissing |].
  refine (proj2 (proj1 (malformed_answer_is_a_generic_500 (fixed wire)
                   handler0 (request "r1" "") tt
                   {| api.Data := Some token_on_the_wire |}
                   token_on_the_wire _ eq_refl) eq_refl Hmissing)).
  discriminate.
Defined.

(** ** The create-roleset handler *)

(** A request the validator lets through has a project and one of the two
    secret types. *)
Lemma RolesetRequest_validate_nil (req : vault.RolesetRequest) :
  vault.RolesetRequest_validate req = [] ->
  vault.Project req <> ""
  /\ (vault.SecretType req = "access_token"
      \/ vault.SecretType req = "service_account_key").
Proof.
  unfold vault.RolesetRequest_validate, binding.required, binding.oneof,
    vault.secretTypes.
  cbn [existsb].
  destruct (String.eqb (vault.Project req) "") eqn:Hp; cbn [negb];
    [discriminate |].
  destruct (String.eqb (vault.SecretType req) "") eqn:Hs; cbn [negb];
    [discriminate |].
  destruct (String.eqb (vault.SecretType req) "access_token") eqn:Ha;
    cbn [orb negb].
  - intros _. apply String.eqb_neq in Hp. apply String.eqb_eq in Ha. auto.
  - destruct (String.eqb (vault.SecretType req) "service_account_key") eqn:Hk;
      cbn [orb negb]; [| discriminate].
    intros _. apply String.eqb_neq in Hp. apply String.eqb_eq in Hk. auto.
Qed.

(** What the binding returns is the body's fields, validated. *)
Lemma ShouldBindJSON_RolesetRequest_ok (c : gin.Context)
      (req : vault.RolesetRequest) :
  handlers.ShouldBindJSON_RolesetRequest c = Ok req ->
  vault.Project req = body_field c "project"
  /\ vault.SecretType req = body_field c "secret_type"
  /\ vault.Bindings req = body_field c "bindings"
  /\ vault.RolesetRequest_validate req = [].
Proof.
  unfold handlers.ShouldBindJSON_RolesetRequest, body_field.
  destruct (json.bind _ _ _ _) as [set [err |]]; [discriminate |].
  cbn [fst].
  match goal with
  | |- context [vault.RolesetRequest_validate ?r] =>
      destruct (vault.RolesetRequest_validate r) eqn:Hv
  end; [| discriminate].
  intros [= <-]. cbn. auto.
Qed.

(** C8.  A create-roleset request whose body does not give [secret_type]
    one of the two recognized values (a missing one is the empty string),
    or gives no [project], is answered 400, and no call is made. *)
Theorem CreateRoleset_rejects_invalid (W : World) (h : handlers.Handler)
        (c : gin.Context) (s : State W) :
  (body_field c "secret_type" <> "access_token"
   /\ body_field c "secret_type" <> "service_account_key")
  \/ body_field c "project" = "" ->
  exists resp,
    outcome (run W (main.serve h main.POST_rolesets_name c) s) = Returned resp
    /\ handlers.Status resp = http.StatusBadRequest
    /\ calls (run W (main.serve h main.POST_rolesets_name c) s) = [].
Proof.
  intros Hbad.
  assert (Hh : exists resp,
             main.handler h main.POST_rolesets_name c = Ret resp
             /\ handlers.Status resp = http.StatusBadRequest).
  { unfold main.handler, handlers.CreateRoleset.
    destruct (String.eqb (gin.Param c "name") ""); [eauto |].
    destruct (handlers.ShouldBindJSON_RolesetRequest c) as [req | err] eqn:Hb;
      [| eauto].
    exfalso.
    destruct (ShouldBindJSON_RolesetRequest_ok c req Hb)
      as (Hp & Hs & _ & Hv).
    destruct (RolesetRequest_validate_nil req Hv) as [Hproject Htype].
    rewrite Hp in Hproject. rewrite Hs in Htype.
    destruct Hbad as [[Ha Hk] | Hmissing]; [| contradiction].
    destruct Htype; contradiction. }
  destruct Hh as (resp & Hret & Hstatus).
  exists resp.
  destruct (serve_returned W h main.POST_rolesets_name c s resp) as [Ho Hc].
  { rewrite Hret. reflexivity. }
  rewrite Ho, Hc, Hret. auto.
Qed.

(** The request of the specification: a bogus [secret_type] and no
    [project]. *)
Lemma CreateRoleset_rejects_invalid_witness :
  body_field (request "r2" body_r2) "secret_type" = "bogus"
  /\ exists resp,
       outcome (run sim.world
                    (main.serve handler0 main.POST_rolesets_name
                                (request "r2" body_r2)) provisioned)
       = Returned resp
       /\ handlers.Status resp = http.StatusBadRequest
       /\ calls (run sim.world
                     (main.serve handler0 main.POST_rolesets_name
                                 (request "r2" body_r2)) provisioned) = [].
Proof.
  split; [vm_compute; reflexivity |].
  apply (CreateRoleset_rejects_invalid sim.world handler0
           (request "r2" body_r2) provisioned).
  left. split; vm_compute; discriminate.
Defined.

(** A request that passes validation and gives no [bindings] is refused:
    the handler parses the field as JSON, and the empty string is not
    JSON. *)
Lemma CreateRoleset_needs_bindings (W : World) (h : handlers.Handler)
      (c : gin.Context) (s : State W) (req : vault.RolesetRequest) :
  gin.Param c "name" <> "" ->
  handlers.ShouldBindJSON_RolesetRequest c = Ok req ->
  vault.Bindings req = "" ->
  outcome (run W (main.serve h main.POST_rolesets_name c) s)
  = Returned (handlers.JSON http.StatusBadRequest
                (handlers.H [("error", "Invalid bindings format")]))
  /\ calls (run W (main.serve h main.POST_rolesets_name c) s) = [].
Proof.
  intros Hname Hbind Hnone. apply String.eqb_neq in Hname.
  assert (Hret : main.handler h main.POST_rolesets_name c
                 = Ret (handlers.JSON http.StatusBadRequest
                          (handlers.H [("error", "Invalid bindings format")]))).
  { unfold main.handler, handlers.CreateRoleset.
    rewrite Hname, Hbind, Hnone. reflexivity. }
  destruct (serve_returned W h main.POST_rolesets_name c s _
              (f_equal (fun p => outcome (run W p s)) Hret)) as [Ho Hc].
  rewrite Ho, Hc, Hret. auto.
Qed.

(** C4, on the code.  The request of the specification,
    [POST /rolesets/r1] with a project and a secret type and no [bindings],
    passes validation, and is answered 400 [Invalid bindings format]; no
    call is made. *)
Theorem CreateRoleset_without_bindings_is_refused :
  handlers.ShouldBindJSON_RolesetRequest (request "r1" body_r1)
  = Ok {| vault.Project := "p"; vault.SecretType := "access_token";
          vault.TokenScopes := ""; vault.Bindings := "";
          vault.TTL := ""; vault.MaxTTL := "" |}
  /\ outcome (run sim.world
                  (main.serve handler0 main.POST_rolesets_name
                              (request "r1" body_r1)) provisioned)
     = Returned (handlers.JSON http.StatusBadRequest
                   (handlers.H [("error", "Invalid bindings format")]))
  /\ calls (run sim.world
                (main.serve handler0 main.POST_rolesets_name
                            (request "r1" body_r1)) provisioned) = [].
Proof.
  assert (Hbind : handlers.ShouldBindJSON_RolesetRequest (request "r1" body_r1)
                  = Ok {| vault.Project := "p";
                          vault.SecretType := "access_token";
                          vault.TokenScopes := ""; vault.Bindings := "";
                          vault.TTL := ""; vault.MaxTTL := "" |}).
  { vm_compute. reflexivity. }
  split; [exact Hbind |].
  eapply CreateRoleset_needs_bindings;
    [discriminate | exact Hbind | reflexivity].
Qed.

(** ** The context of the gateway calls *)

Lemma quiet_calls {A : Type} (W : World) (p : Prog A) (s : State W) :
  quiet p -> calls (run W p s) = [].
Proof. destruct p; cbn; [reflexivity | reflexivity | contradiction]. Qed.

Lemma quiet_bind {A B : Type} (p : Prog A) (f : A -> Prog B) :
  quiet p -> (forall a, quiet (f a)) -> quiet (bind p f).
Proof. destruct p; cbn; auto. Qed.

Lemma quiet_assertion {A B : Type} (as_T : option Value -> option A)
      (T : string) (v : option Value) (k : A -> Prog B) :
  (forall a, quiet (k a)) -> quiet (vault.assertion as_T T v k).
Proof.
  intros Hk. unfold vault.assertion. destruct (as_T v); cbn; auto.
Qed.

Lemma quiet_keyStrings (keys : list Value) : quiet (vault.keyStrings keys).
Proof.
  induction keys as [| key keys IH]; cbn [vault.keyStrings]; [exact I |].
  apply quiet_assertion. intros a. prog. apply quiet_bind; [exact IH |].
  intros rest. exact I.
Qed.

Lemma single_calls {A B : Type} (W : World) (c : Call) (p : Prog A)
      (f : A -> Prog B) (s : State W) :
  single c p -> (forall a, quiet (f a)) ->
  calls (run W (bind p f) s) = [c].
Proof.
  intros (k & -> & Hk) Hf. cbn [bind]. rewrite run_do. cbn [calls].
  f_equal. apply quiet_calls. apply quiet_bind; auto.
Qed.

Lemma serve_calls (W : World) (h : handlers.Handler) (r : main.Route)
      (c : gin.Context) (s : State W) :
  calls (run W (main.serve h r c) s) = calls (run W (main.handler h r c) s).
Proof.
  unfold main.serve, handlers.ErrorHandlingMiddleware,
    handlers.LoggingMiddleware.
  rewrite run_recovering_calls.
  destruct (outcome (run W (main.handler h r c) s)); cbn;
    apply app_nil_r.
Qed.

(** Each gateway operation makes one call, with the context it was
    given; [HealthCheck] puts its own 5 s timeout on it. *)
Lemma ListRolesets_single (c : vault.Client) (ctx : Context) :
  single (LogicalList ctx "gcp/roleset") (vault.ListRolesets c ctx).
Proof.
  unfold vault.ListRolesets. prog. eexists. split; [reflexivity |].
  intros [[[[d |]] |] | err]; cbn; try exact I.
  destruct (assert_slice (d !! "keys")); [| exact I].
  apply quiet_bind; [apply quiet_keyStrings | intros; exact I].
Qed.

Lemma DeleteRoleset_single (c : vault.Client) (ctx : Context) (name : string) :
  single (LogicalDelete ctx ("gcp/roleset/" +:+ name))
         (vault.DeleteRoleset c ctx name).
Proof.
  unfold vault.DeleteRoleset. prog. eexists. split; [reflexivity |].
  intros [? | ?]; exact I.
Qed.

Lemma HealthCheck_single (c : vault.Client) (ctx : Context) :
  single (SysHealth (WithTimeout ctx (5 * Second))) (vault.HealthCheck c ctx).
Proof.
  unfold vault.HealthCheck. prog. eexists. split; [reflexivity |].
  intros [[init sealed] | ?]; cbn; [| exact I].
  destruct (negb init || sealed); exact I.
Qed.

Lemma GetServiceAccountKey_single (c : vault.Client) (ctx : Context)
      (name : string) :
  single (LogicalRead ctx ("gcp/key/" +:+ name))
         (vault.GetServiceAccountKey c ctx name).
Proof.
  unfold vault.GetServiceAccountKey. prog. eexists. split; [reflexivity |].
  intros [[[[d |]] |] | err]; cbn; try exact I.
  repeat (apply quiet_assertion; intros ?). exact I.
Qed.

Lemma GetToken_single (c : vault.Client) (ctx : Context)
      (name ttl : string) :
  exists call,
    single call (vault.GetToken c ctx name ttl) /\ call_ctx call = Some ctx.
Proof.
  unfold vault.GetToken. prog.
  destruct (negb (String.eqb ttl "")); cbn [bind];
    eexists; (split; [eexists; split; [reflexivity |] | reflexivity]);
    intros [[[[d |]] |] | err]; cbn; try exact I;
    repeat (apply quiet_assertion; intros ?); exact I.
Qed.

Lemma CreateRoleset_single (c : vault.Client) (ctx : Context) (name : string)
      (req : vault.RolesetRequest) :
  single (LogicalWrite ctx ("gcp/roleset/" +:+ name) (vault.rolesetData c req))
         (vault.CreateRoleset c ctx name req).
Proof.
  unfold vault.CreateRoleset. prog. eexists. split; [reflexivity |].
  intros [? | ?]; exact I.
Qed.

Lemma derived_refl (ctx : Context) : derived ctx ctx.
Proof. destruct ctx; left; reflexivity. Qed.

Lemma ctxErr_WithTimeout (cancelled : nat -> bool) (elapsed : Duration)
      (parent : Context) (d : Duration) :
  is_Some (ctxErr cancelled elapsed parent) ->
  is_Some (ctxErr cancelled elapsed (WithTimeout parent d)).
Proof. intros [e He]. cbn. rewrite He. eauto. Qed.

(** On every route but the create-roleset one, the context of each call is
    derived from the request's and has a timeout. *)
Lemma handlers_derive_context (W : World) (h : handlers.Handler)
      (r : main.Route) (c : gin.Context) (s : State W) :
  derives_context r = true ->
  every_ctx (fun ctx => derived ctx (gin.RequestContext c)
                        /\ is_Some (bound ctx))
            (calls (run W (main.serve h r c) s)).
Proof.
  intros Hr. rewrite serve_calls. unfold every_ctx.
  assert (Hd : forall d,
             derived (WithTimeout (gin.RequestContext c) d)
                     (gin.RequestContext c)
             /\ is_Some (bound (WithTimeout (gin.RequestContext c) d))).
  { intros d. split; [right; apply derived_refl |].
    cbn. destruct (bound (gin.RequestContext c)); eauto. }
  destruct r; try discriminate Hr; unfold main.handler.
  - unfold handlers.HealthCheck. prog.
    rewrite (single_calls W _ _ _ s (HealthCheck_single _ _)).
    + constructor; [| constructor]. cbn [call_ctx]. split.
      * right. right. apply derived_refl.
      * cbn. destruct (bound (gin.RequestContext c)); eauto.
    + intros [? |]; exact I.
  - unfold handlers.ListRolesets. prog.
    rewrite (single_calls W _ _ _ s (ListRolesets_single _ _)).
    + constructor; [| constructor]. apply Hd.
    + intros [? | ?]; exact I.
  - unfold handlers.DeleteRoleset. prog.
    destruct (String.eqb (gin.Param c "name") ""); [constructor |].
    rewrite (single_calls W _ _ _ s (DeleteRoleset_single _ _ _)).
    + constructor; [| constructor]. apply Hd.
    + intros [? |]; exact I.
  - unfold handlers.GetAccessToken. prog.
    destruct (String.eqb (gin.Param c "name") ""); [constructor |].
    destruct (GetToken_single (handlers.vaultClient h)
                (WithTimeout (gin.RequestContext c) (30 * Second))
                (gin.Param c "name")
                (handlers.TTL (fst (handlers.ShouldBindJSON_TokenRequest c))))
      as (call & Hsingle & Hctx).
    rewrite (single_calls W _ _ _ s Hsingle).
    + constructor; [| constructor]. rewrite Hctx. apply Hd.
    + intros [? | ?]; exact I.
  - unfold handlers.GetServiceAccountKey. prog.
    destruct (String.eqb (gin.Param c "name") ""); [constructor |].
    rewrite (single_calls W _ _ _ s (GetServiceAccountKey_single _ _ _)).
    + constructor; [| constructor]. apply Hd.
    + intros [? | ?]; exact I.
Qed.

(** On those routes a request whose context is done does not succeed, as
    long as the client gives up the calls whose context is done. *)
Lemma cancelled_request_fails (W : World) (h : handlers.Handler)
      (r : main.Route) (c : gin.Context) (s : State W)
      (cancelled : nat -> bool) (elapsed : Duration) :
  honours cancelled elapsed W ->
  derives_context r = true ->
  is_Some (ctxErr cancelled elapsed (gin.RequestContext c)) ->
  exists resp,
    outcome (run W (main.serve h r c) s) = Returned resp
    /\ ~ succeeded resp.
Proof.
  intros Hhon Hr Hdone.
  assert (Hfail : forall call d,
             call_ctx call = Some (WithTimeout (gin.RequestContext c) d) ->
             failed call (fst (answer W call s))).
  { intros call d Hctx. apply (Hhon call _ s Hctx).
    apply ctxErr_WithTimeout, Hdone. }
  assert (Hh : exists resp,
             outcome (run W (main.handler h r c) s) = Returned resp
             /\ ~ succeeded resp).
  { destruct r; try discriminate Hr; unfold main.handler.
    - unfold handlers.HealthCheck, vault.HealthCheck. prog. rewrite run_do.
      destruct (Hhon (SysHealth (WithTimeout
                        (WithTimeout (gin.RequestContext c) (5 * Second))
                        (5 * Second))) _ s eq_refl
                  (ctxErr_WithTimeout _ _ _ _
                     (ctxErr_WithTimeout _ _ _ (5 * Second) Hdone)))
        as [e He].
      rewrite He. cbn. eexists. split; [reflexivity |].
      intros [H | H]; discriminate H.
    - unfold handlers.ListRolesets, vault.ListRolesets. prog. rewrite run_do.
      destruct (Hfail (LogicalList
                         (WithTimeout (gin.RequestContext c) (15 * Second))
                         "gcp/roleset") _ eq_refl) as [e He].
      rewrite He. cbn. eexists. split; [reflexivity |].
      intros [H | H]; discriminate H.
    - unfold handlers.DeleteRoleset, vault.DeleteRoleset. prog.
      destruct (String.eqb (gin.Param c "name") "").
      + cbn. eexists. split; [reflexivity |].
        intros [H | H]; discriminate H.
      + rewrite run_do.
        destruct (Hfail (LogicalDelete
                           (WithTimeout (gin.RequestContext c) (15 * Second))
                           ("gcp/roleset/" +:+ gin.Param c "name"))
                        _ eq_refl) as [e He].
        rewrite He. cbn. eexists. split; [reflexivity |].
        intros [H | H]; discriminate H.
    - unfold handlers.GetAccessToken, vault.GetToken. prog.
      destruct (String.eqb (gin.Param c "name") "").
      + cbn. eexists. split; [reflexivity |].
        intros [H | H]; discriminate H.
      + destruct (negb (String.eqb
                    (handlers.TTL
                       (fst (handlers.ShouldBindJSON_TokenRequest c))) ""));
          cbn [bind]; rewrite run_do.
        * destruct (Hfail (LogicalWrite
                             (WithTimeout (gin.RequestContext c)
                                          (30 * Second))
                             ("gcp/token/" +:+ gin.Param c "name")
                             (<["ttl" :=
                                  VString
                                    (handlers.TTL
                                       (fst
                                          (handlers.ShouldBindJSON_TokenRequest
                                             c)))]> ∅))
                          _ eq_refl) as [e He].
          rewrite He. cbn. eexists. split; [reflexivity |].
          intros [H | H]; discriminate H.
        * destruct (Hfail (LogicalRead
                             (WithTimeout (gin.RequestContext c)
                                          (30 * Second))
                             ("gcp/token/" +:+ gin.Param c "name"))
                          _ eq_refl) as [e He].
          rewrite He. cbn. eexists. split; [reflexivity |].
          intros [H | H]; discriminate H.
    - unfold handlers.GetServiceAccountKey, vault.GetServiceAccountKey. prog.
      destruct (String.eqb (gin.Param c "name") "").
      + cbn. eexists. split; [reflexivity |].
        intros [H | H]; discriminate H.
      + rewrite run_do.
        destruct (Hfail (LogicalRead
                           (WithTimeout (gin.RequestContext c) (30 * Second))
                           ("gcp/key/" +:+ gin.Param c "name"))
                        _ eq_refl) as [e He].
        rewrite He. cbn. eexists. split; [reflexivity |].
        intros [H | H]; discriminate H. }
  destruct Hh as (resp & Hret & Hbad). exists resp.
  split; [apply (serve_returned W h r c s resp Hret) | exact Hbad].
Qed.

Lemma honouring_honours (cancelled : nat -> bool) (elapsed : Duration)
      (W : World) :
  honours cancelled elapsed (honouring cancelled elapsed W).
Proof.
  intros c ctx s Hctx [e He].
  destruct c; try discriminate Hctx; injection Hctx as ->;
    cbn; rewrite He; cbn; eauto.
Qed.

(** C5, on the code.  The create-roleset handler passes
    [context.Background()] to the gateway: a context that is not derived
    from the request's and has no timeout.  With the client of the request
    gone and its context cancelled, the write to Vault is made all the same
    and the request is answered 201, where the delete handler, given the
    same request, gives up with a 500. *)
Theorem CreateRoleset_ignores_request_context :
  ctxErr gone 0 (gin.RequestContext (request "r1" body_with_bindings))
  = Some "context canceled"
  /\ calls (run (honouring gone 0 sim.world)
                (main.serve handler0 main.POST_rolesets_name
                            (request "r1" body_with_bindings)) provisioned)
     = [LogicalWrite Background "gcp/roleset/r1"
          (vault.rolesetData client0
             {| vault.Project := "p"; vault.SecretType := "access_token";
                vault.TokenScopes := ""; vault.Bindings := "{}";
                vault.TTL := ""; vault.MaxTTL := "" |})]
  /\ outcome (run (honouring gone 0 sim.world)
                  (main.serve handler0 main.POST_rolesets_name
                              (request "r1" body_with_bindings)) provisioned)
     = Returned (handlers.JSON http.StatusCreated
                   (handlers.H [("message", "Roleset created successfully")]))
  /\ ~ derived Background
               (gin.RequestContext (request "r1" body_with_bindings))
  /\ bound Background = None
  /\ outcome (run (honouring gone 0 sim.world)
                  (main.serve handler0 main.DELETE_rolesets_name
                              (request "r1" body_with_bindings)) provisioned)
     = Returned (handlers.JSON http.StatusInternalServerError
                   (handlers.ErrorResponse "Failed to delete roleset"
                      "failed to delete roleset: context canceled")).
Proof.
  split; [reflexivity |].
  split; [vm_compute; reflexivity |].
  split; [vm_compute; reflexivity |].
  split; [intros [H | []]; discriminate H |].
  split; [reflexivity |].
  vm_compute. reflexivity.
Qed.

(** ** The small Vault, end to end *)

Example access_token_roleset_gets_default_scopes :
  vault.rolesetData client0
    {| vault.Project := "p"; vault.SecretType := "access_token";
       vault.TokenScopes := ""; vault.Bindings := "";
       vault.TTL := ""; vault.MaxTTL := "" |} !! "token_scopes"
  = Some (VString "https://www.googleapis.com/auth/cloud-platform")
  /\ vault.rolesetData client0
       {| vault.Project := "p"; vault.SecretType := "service_account_key";
          vault.TokenScopes := ""; vault.Bindings := "";
          vault.TTL := ""; vault.MaxTTL := "" |} !! "token_scopes"
     = None.
Proof. split; vm_compute; reflexivity. Qed.

(** Start-up against a fresh Vault: the listing, the mount, the
    configuration, the health probe. *)
Example startup_fresh :
  outcome (run sim.world (main.startup client0) sim.fresh) = Returned None
  /\ map is_mount (calls (run sim.world (main.startup client0) sim.fresh))
     = [false; true; false; false]
  /\ outcome (run sim.world (main.startup client0) provisioned)
     = Returned None
  /\ map is_mount (calls (run sim.world (main.startup client0) provisioned))
     = [false; false; false].
Proof. repeat split; vm_compute; reflexivity. Qed.

(** A roleset created (with bindings) is listed, and is no longer listed
    once deleted. *)
Example roleset_round_trip :
  let created :=
    run sim.world (main.serve handler0 main.POST_rolesets_name
                              (request "r1" body_with_bindings)) provisioned in
  let deleted :=
    run sim.world (main.serve handler0 main.DELETE_rolesets_name
                              (request "r1" "")) (final created) in
  handlers.Status <$> outcome_value (outcome created) = Some 201
  /\ outcome (run sim.world (main.serve handler0 main.GET_rolesets
                                        (request "" "")) (final created))
     = Returned (handlers.JSON 200
                   (handlers.SuccessResponse "Rolesets retrieved successfully"
                      (Some (handlers.RolesetsData ["r1"] 1))))
  /\ handlers.Status <$> outcome_value (outcome deleted) = Some 200
  /\ outcome (run sim.world (main.serve handler0 main.GET_rolesets
                                        (request "" "")) (final deleted))
     = Returned (handlers.JSON 200
                   (handlers.SuccessResponse "Rolesets retrieved successfully"
                      (Some (handlers.RolesetsData [] 0)))).
Proof. repeat split; vm_compute; reflexivity. Qed.

(** * Further properties *)

(** ** [Initialize]: the failures before the configuration *)

(** X1.  When the listing of the mounts fails, [Initialize] returns the
    failure, prefixed, and has made no other call: nothing is mounted and
    nothing is configured. *)
Theorem Initialize_list_failure (W : World) (c : vault.Client)
        (ctx : Context) (s s1 : State W) (err : string) :
  answer W SysListMounts s = (Err err, s1) ->
  outcome (run W (vault.Initialize c ctx) s)
  = Returned (Some ("failed to list mounts: " +:+ err))
  /\ calls (run W (vault.Initialize c ctx) s) = [SysListMounts].
Proof.
  intros Hlist. unfold vault.Initialize. prog.
  rewrite run_do, Hlist. split; reflexivity.
Qed.

Lemma Initialize_list_failure_witness :
  outcome (run (fixed down) (vault.Initialize client0 Background) tt)
  = Returned (Some ("failed to list mounts: " +:+ refused))
  /\ calls (run (fixed down) (vault.Initialize client0 Background) tt)
     = [SysListMounts].
Proof.
  exact (Initialize_list_failure (fixed down) client0 Background tt tt
           refused eq_refl).
Defined.

(** X2.  When the table has no [gcp] mount and the mount call fails,
    [Initialize] returns that failure, prefixed, and stops: the calls are
    the listing and the mount call, and the engine is not configured. *)
Theorem Initialize_mount_refused (W : World) (c : vault.Client)
        (ctx : Context) (s s1 s2 : State W)
        (mounts : gmap string api.MountOutput) (err : string) :
  answer W SysListMounts s = (Ok mounts, s1) ->
  ~ has_gcp_mount mounts ->
  answer W (SysMount "gcp" vault.gcpMountInput) s1 = (Some err, s2) ->
  outcome (run W (vault.Initialize c ctx) s)
  = Returned (Some ("failed to enable GCP secrets engine: " +:+ err))
  /\ calls (run W (vault.Initialize c ctx) s)
     = [SysListMounts; SysMount "gcp" vault.gcpMountInput].
Proof.
  intros Hlist Hnot Hmount. apply gcpMountExists_false in Hnot.
  unfold vault.Initialize. prog.
  rewrite run_do, Hlist. cbn [fst snd outcome calls]. rewrite Hnot.
  cbn [negb bind]. rewrite run_do, Hmount. split; reflexivity.
Qed.

Lemma Initialize_mount_refused_witness :
  outcome (run (fixed mount_denied) (vault.Initialize client0 Background) tt)
  = Returned
      (Some ("failed to enable GCP secrets engine: " +:+ "permission denied"))
  /\ calls (run (fixed mount_denied) (vault.Initialize client0 Background) tt)
     = [SysListMounts; SysMount "gcp" vault.gcpMountInput].
Proof.
  refine (Initialize_mount_refused (fixed mount_denied) client0 Background
            tt tt tt ∅ "permission denied" eq_refl _ eq_refl).
  apply gcpMountExists_false. reflexivity.
Defined.

(** ** The mount check *)

Lemma TrimSuffix_gcp (path : string) :
  strings.TrimSuffix path "/" = "gcp" <-> path = "gcp" \/ path = "gcp/".
Proof.
  split.
  - unfold strings.TrimSuffix, strings.HasSuffix.
    destruct path as [| a [| b [| c [| d [| e rest]]]]].
    + cbn. discriminate.
    + cbn. destruct (Ascii.eqb a "/"); cbn; discriminate.
    + cbn. destruct (Ascii.eqb b "/"); cbn; discriminate.
    + cbn. destruct (Ascii.eqb c "/") eqn:E; cbn; [discriminate |]. auto.
    + cbn. destruct (Ascii.eqb d "/") eqn:E; cbn; [| discriminate].
      apply Ascii.eqb_eq in E. subst d. intros [= -> -> ->]. auto.
    + match goal with
      | |- (if ?b then _ else _) = _ -> _ => destruct b
      end; cbn; discriminate.
  - intros [-> | ->]; reflexivity.
Qed.

(** X3.  The loop of [Initialize] over the mount table finds the engine
    exactly when the table has the key [gcp] or the key [gcp/]: one
    trailing separator is stripped, no more, and nothing else is matched
    ([gcp//], [GCP/], [gcp/x] are not the engine). *)
Theorem gcpMountExists_keys (mounts : gmap string api.MountOutput) :
  (vault.gcpMountExists mounts = true
   <-> is_Some (mounts !! "gcp") \/ is_Some (mounts !! "gcp/"))
  /\ strings.TrimSuffix "gcp//" "/" <> "gcp"
  /\ strings.TrimSuffix "GCP/" "/" <> "gcp"
  /\ strings.TrimSuffix "gcp/x" "/" <> "gcp".
Proof.
  split; [| repeat split; discriminate].
  rewrite gcpMountExists_spec. unfold has_gcp_mount. split.
  - intros (path & Hsome & Htrim). apply TrimSuffix_gcp in Htrim.
    destruct Htrim as [-> | ->]; auto.
  - intros [H | H]; eexists; (split; [exact H | reflexivity]).
Qed.

(** ** The gateway's payloads and results *)

Lemma rolesetData_lookups (c : vault.Client) (req : vault.RolesetRequest) :
  vault.rolesetData c req !! "project" = Some (VString (vault.Project req))
  /\ vault.rolesetData c req !! "secret_type"
     = Some (VString (vault.SecretType req))
  /\ vault.rolesetData c req !! "bindings"
     = (if String.eqb (vault.Bindings req) "" then None
        else Some (VString (vault.Bindings req)))
  /\ vault.rolesetData c req !! "ttl"
     = (if String.eqb (vault.TTL req) "" then None
        else Some (VString (vault.TTL req)))
  /\ vault.rolesetData c req !! "max_ttl"
     = (if String.eqb (vault.MaxTTL req) "" then None
        else Some (VString (vault.MaxTTL req)))
  /\ forall key,
       key <> "project" -> key <> "secret_type" -> key <> "token_scopes" ->
       key <> "bindings" -> key <> "ttl" -> key <> "max_ttl" ->
       vault.rolesetData c req !! key = None.
Proof.
  unfold vault.rolesetData.
  assert (Hb : (0 <? String.length (vault.Bindings req))%nat
               = negb (String.eqb (vault.Bindings req) "")).
  { destruct (vault.Bindings req); reflexivity. }
  rewrite Hb. clear Hb.
  destruct (String.eqb (vault.MaxTTL req) "");
    destruct (String.eqb (vault.TTL req) "");
    destruct (String.eqb (vault.Bindings req) "");
    destruct (String.eqb (vault.TokenScopes req) "");
    destruct (String.eqb (vault.SecretType req) "access_token");
    cbn [negb];
    repeat split;
    try (intros key H1 H2 H3 H4 H5 H6);
    repeat first [ rewrite lookup_insert_eq
                 | rewrite lookup_insert_ne by congruence
                 | rewrite lookup_empty ];
    reflexivity.
Qed.

(** X4.  The payload of [CreateRoleset] carries [project] and
    [secret_type] as given, [bindings], [ttl] and [max_ttl] each exactly
    when the request's field is not empty, and besides [token_scopes] no
    other key. *)
Theorem rolesetData_fields (c : vault.Client) (req : vault.RolesetRequest) :
  vault.rolesetData c req !! "project" = Some (VString (vault.Project req))
  /\ vault.rolesetData c req !! "secret_type"
     = Some (VString (vault.SecretType req))
  /\ vault.rolesetData c req !! "bindings"
     = (if String.eqb (vault.Bindings req) "" then None
        else Some (VString (vault.Bindings req)))
  /\ vault.rolesetData c req !! "ttl"
     = (if String.eqb (vault.TTL req) "" then None
        else Some (VString (vault.TTL req)))
  /\ vault.rolesetData c req !! "max_ttl"
     = (if String.eqb (vault.MaxTTL req) "" then None
        else Some (VString (vault.MaxTTL req)))
  /\ forall key,
       key <> "project" -> key <> "secret_type" -> key <> "token_scopes" ->
       key <> "bindings" -> key <> "ttl" -> key <> "max_ttl" ->
       vault.rolesetData c req !! key = None.
Proof. exact (rolesetData_lookups c req). Qed.

(** X5.  [GetToken] makes one call, at [gcp/token/{roleset}] with the
    context it was given: a write carrying only [ttl] when the TTL is not
    empty, a read otherwise. *)
Theorem GetToken_request (W : World) (c : vault.Client) (ctx : Context)
        (rolesetName ttl : string) (s : State W) :
  (ttl <> "" ->
   calls (run W (vault.GetToken c ctx rolesetName ttl) s)
   = [LogicalWrite ctx ("gcp/token/" +:+ rolesetName)
                   (<["ttl" := VString ttl]> ∅)])
  /\ (ttl = "" ->
      calls (run W (vault.GetToken c ctx rolesetName ttl) s)
      = [LogicalRead ctx ("gcp/token/" +:+ rolesetName)]).
Proof.
  split; intros Httl.
  - apply String.eqb_neq in Httl.
    unfold vault.GetToken. prog. rewrite Httl. cbn [negb bind].
    rewrite run_do. cbn [calls]. f_equal.
    apply quiet_calls.
    destruct (fst (answer W _ s)) as [[[[d |]] |] | err]; cbn; try exact I.
    repeat (apply quiet_assertion; intros ?). exact I.
  - subst ttl. unfold vault.GetToken. prog. cbn [String.eqb negb bind].
    rewrite run_do. cbn [calls]. f_equal.
    apply quiet_calls.
    destruct (fst (answer W _ s)) as [[[[d |]] |] | err]; cbn; try exact I.
    repeat (apply quiet_assertion; intros ?). exact I.
Qed.

(** X6.  When the token answer has data with a string [token], a string
    [token_ttl] and a [float64] [expires_at_seconds], [GetToken] returns
    the two strings as they are and the expiry converted to [int64];
    other entries of the answer are ignored. *)
Theorem GetToken_returns_fields (W : World) (c : vault.Client)
        (ctx : Context) (rolesetName ttl : string) (s : State W)
        (secret : api.Secret) (d : gmap string Value)
        (token token_ttl : string) (expires : spec_float) :
  token_answer W s ctx rolesetName ttl = Ok (Some secret) ->
  api.Data secret = Some d ->
  d !! "token" = Some (VString token) ->
  d !! "token_ttl" = Some (VString token_ttl) ->
  d !! "expires_at_seconds" = Some (VFloat64 expires) ->
  outcome (run W (vault.GetToken c ctx rolesetName ttl) s)
  = Returned (Ok {| vault.Token := token; vault.TokenTTL := token_ttl;
                    vault.ExpiresAtSeconds := int64_of_float64 expires |}).
Proof.
  unfold token_answer, vault.GetToken. prog.
  intros Hanswer Hdata Ht Httl He.
  destruct (negb (String.eqb ttl "")); cbn [bind];
    rewrite run_do, Hanswer; cbn [outcome]; rewrite Hdata;
    unfold vault.assertion; rewrite Ht, Httl, He; reflexivity.
Qed.

Lemma GetToken_returns_fields_witness :
  outcome (run (fixed issuing) (vault.GetToken client0 Background "r1" "") tt)
  = Returned (Ok {| vault.Token := "ya29.c.c0ASRK0Ga";
                    vault.TokenTTL := "29m59s";
                    vault.ExpiresAtSeconds := 1758020274 |}).
Proof.
  exact (GetToken_returns_fields (fixed issuing) client0 Background "r1" ""
           tt {| api.Data := Some token_decoded |} token_decoded
           "ya29.c.c0ASRK0Ga" "29m59s" (S754_finite false 1758020274 0)
           eq_refl eq_refl eq_refl eq_refl eq_refl).
Defined.

(** X7.  When the key answer has data with the four fields as strings,
    [GetServiceAccountKey] reads [gcp/key/{roleset}] once and returns the
    four strings as they are. *)
Theorem GetServiceAccountKey_returns_fields (W : World) (c : vault.Client)
        (ctx : Context) (rolesetName : string) (s : State W)
        (secret : api.Secret) (d : gmap string Value)
        (data algorithm type id : string) :
  fst (answer W (LogicalRead ctx ("gcp/key/" +:+ rolesetName)) s)
  = Ok (Some secret) ->
  api.Data secret = Some d ->
  d !! "private_key_data" = Some (VString data) ->
  d !! "key_algorithm" = Some (VString algorithm) ->
  d !! "key_type" = Some (VString type) ->
  d !! "key_id" = Some (VString id) ->
  outcome (run W (vault.GetServiceAccountKey c ctx rolesetName) s)
  = Returned (Ok {| vault.PrivateKeyData := data;
                    vault.KeyAlgorithm := algorithm;
                    vault.KeyType := type; vault.KeyID := id |})
  /\ calls (run W (vault.GetServiceAccountKey c ctx rolesetName) s)
     = [LogicalRead ctx ("gcp/key/" +:+ rolesetName)].
Proof.
  unfold vault.GetServiceAccountKey. prog.
  intros Hanswer Hdata H1 H2 H3 H4.
  rewrite run_do, Hanswer. cbn [outcome calls]. rewrite Hdata.
  unfold vault.assertion. rewrite H1, H2, H3, H4. split; reflexivity.
Qed.

Lemma GetServiceAccountKey_returns_fields_witness :
  outcome (run (fixed issuing)
               (vault.GetServiceAccountKey client0 Background "r1") tt)
  = Returned (Ok {| vault.PrivateKeyData := "ZGF0YQ==";
                    vault.KeyAlgorithm := "KEY_ALG_RSA_2048";
                    vault.KeyType := "TYPE_GOOGLE_CREDENTIALS_FILE";
                    vault.KeyID := "k1" |})
  /\ calls (run (fixed issuing)
                (vault.GetServiceAccountKey client0 Background "r1") tt)
     = [LogicalRead Background "gcp/key/r1"].
Proof.
  exact (GetServiceAccountKey_returns_fields (fixed issuing) client0
           Background "r1" tt {| api.Data := Some key_decoded |} key_decoded
           "ZGF0YQ==" "KEY_ALG_RSA_2048" "TYPE_GOOGLE_CREDENTIALS_FILE" "k1"
           eq_refl eq_refl eq_refl eq_refl eq_refl eq_refl).
Defined.

(** ** The list of rolesets *)

Lemma keyStrings_strings (names : list string) :
  vault.keyStrings (map VString names) = Ret names.
Proof.
  induction names as [| name names IH]; [reflexivity |].
  cbn [map vault.keyStrings]. unfold vault.assertion. cbn [assert_string].
  prog. rewrite IH. reflexivity.
Qed.

Lemma keyStrings_panics (keys : list Value) :
  Exists (fun key => assert_string (Some key) = None) keys ->
  exists v, vault.keyStrings keys = Panic v.
Proof.
  induction keys as [| key keys IH]; intros Hex.
  - inversion Hex.
  - cbn [vault.keyStrings]. unfold vault.assertion.
    destruct (assert_string (Some key)) as [name |] eqn:Hkey; [| eauto].
    inversion Hex as [? ? Hhead | ? ? Htail]; subst; [congruence |].
    destruct (IH Htail) as [v Hv]. prog. rewrite Hv. cbn [bind]. eauto.
Qed.

(** X8.  When the answer to the listing has data, [ListRolesets] returns
    the [keys] entry converted to names, in order; an answer whose data has
    no [keys] entry, or one that is not a sequence, gives the empty
    sequence and no error. *)
Theorem ListRolesets_names (W : World) (c : vault.Client) (ctx : Context)
        (s : State W) (secret : api.Secret) (d : gmap string Value) :
  fst (answer W (LogicalList ctx "gcp/roleset") s) = Ok (Some secret) ->
  api.Data secret = Some d ->
  (forall names,
     d !! "keys" = Some (VSlice (map VString names)) ->
     outcome (run W (vault.ListRolesets c ctx) s) = Returned (Ok names))
  /\ (assert_slice (d !! "keys") = None ->
      outcome (run W (vault.ListRolesets c ctx) s) = Returned (Ok [])).
Proof.
  unfold vault.ListRolesets. prog. intros Hanswer Hdata.
  rewrite run_do, Hanswer. cbn [outcome]. rewrite Hdata. split.
  - intros names Hkeys. rewrite Hkeys. cbn [assert_slice].
    rewrite keyStrings_strings. reflexivity.
  - intros Hnone. rewrite Hnone. reflexivity.
Qed.

Lemma ListRolesets_names_witness :
  outcome (run (fixed issuing) (vault.ListRolesets client0 Background) tt)
  = Returned (Ok ["r1"; "r2"]).
Proof.
  exact (proj1 (ListRolesets_names (fixed issuing) client0 Background tt
                  {| api.Data :=
                       Some (<["keys" := VSlice [VString "r1"; VString "r2"]]>
                               ∅) |}
                  _ eq_refl eq_refl)
               ["r1"; "r2"] eq_refl).
Defined.

(** X9.  When the [keys] of the list answer hold a value that is not a
    string, [ListRolesets] panics, and the request is answered by the
    recovery wrapper: 500, [Internal server error], no details. *)
Theorem ListRolesets_bad_key_is_a_generic_500 (W : World)
        (h : handlers.Handler) (c : gin.Context) (s : State W)
        (secret : api.Secret) (d : gmap string Value) (keys : list Value) :
  fst (answer W (LogicalList
                   (WithTimeout (gin.RequestContext c) (15 * Second))
                   "gcp/roleset") s) = Ok (Some secret) ->
  api.Data secret = Some d ->
  d !! "keys" = Some (VSlice keys) ->
  Exists (fun key => assert_string (Some key) = None) keys ->
  (exists v,
     outcome (run W (vault.ListRolesets (handlers.vaultClient h)
                       (WithTimeout (gin.RequestContext c) (15 * Second))) s)
     = Panicked v)
  /\ outcome (run W (main.serve h main.GET_rolesets c) s)
     = Returned internal_server_error.
Proof.
  intros Hanswer Hdata Hkeys Hbad.
  destruct (keyStrings_panics keys Hbad) as [v Hv].
  assert (Hp : outcome (run W (vault.ListRolesets (handlers.vaultClient h)
                 (WithTimeout (gin.RequestContext c) (15 * Second))) s)
               = Panicked v).
  { unfold vault.ListRolesets. prog. rewrite run_do, Hanswer.
    cbn [outcome]. rewrite Hdata, Hkeys. cbn [assert_slice].
    rewrite Hv. reflexivity. }
  split; [eauto |].
  apply serve_panicked with (v := v).
  unfold main.handler, handlers.ListRolesets. prog.
  rewrite run_bind_outcome, Hp. reflexivity.
Qed.

Lemma ListRolesets_bad_key_is_a_generic_500_witness :
  outcome (run (fixed listing_numbers)
               (main.serve handler0 main.GET_rolesets (request "" "")) tt)
  = Returned internal_server_error.
Proof.
  refine (proj2 (ListRolesets_bad_key_is_a_generic_500 (fixed listing_numbers)
                   handler0 (request "" "") tt
                   {| api.Data :=
                        Some (<["keys" :=
                                  VSlice [VString "r1"; VNumber "2"]]> ∅) |}
                   _ [VString "r1"; VNumber "2"] eq_refl eq_refl eq_refl _)).
  apply Exists_cons_tl, Exists_cons_hd. reflexivity.
Defined.

(** ** The routes *)

Lemma single_run_calls {A : Type} (W : World) (c : Call) (p : Prog A)
      (s : State W) :
  single c p -> calls (run W p s) = [c].
Proof.
  intros (k & -> & Hk). rewrite run_do. cbn [calls]. f_equal.
  apply quiet_calls, Hk.
Qed.

Lemma GetToken_single_read (c : vault.Client) (ctx : Context)
      (name : string) :
  single (LogicalRead ctx ("gcp/token/" +:+ name))
         (vault.GetToken c ctx name "").
Proof.
  unfold vault.GetToken. prog. cbn [String.eqb negb bind].
  eexists. split; [reflexivity |].
  intros [[[[d |]] |] | err]; cbn; try exact I.
  repeat (apply quiet_assertion; intros ?). exact I.
Qed.

(** X10.  On the four routes with a [:name] segment, a request whose name
    is empty is answered 400, and no call is made. *)
Theorem empty_name_is_rejected (W : World) (h : handlers.Handler)
        (r : main.Route) (c : gin.Context) (s : State W) :
  named r = true ->
  gin.Param c "name" = "" ->
  exists resp,
    outcome (run W (main.serve h r c) s) = Returned resp
    /\ handlers.Status resp = http.StatusBadRequest
    /\ calls (run W (main.serve h r c) s) = [].
Proof.
  intros Hr Hname.
  assert (Hh : exists resp,
             main.handler h r c = Ret resp
             /\ handlers.Status resp = http.StatusBadRequest).
  { destruct r; try discriminate Hr; unfold main.handler,
      handlers.CreateRoleset, handlers.DeleteRoleset,
      handlers.GetAccessToken, handlers.GetServiceAccountKey;
      rewrite Hname; cbn [String.eqb]; eauto. }
  destruct Hh as (resp & Hret & Hstatus). exists resp.
  destruct (serve_returned W h r c s resp) as [Ho Hc].
  { rewrite Hret. reflexivity. }
  rewrite Ho, Hc, Hret. auto.
Qed.

Lemma empty_name_is_rejected_witness :
  exists resp,
    outcome (run sim.world
                 (main.serve handler0 main.DELETE_rolesets_name
                             (request "" "")) provisioned)
    = Returned resp
    /\ handlers.Status resp = http.StatusBadRequest
    /\ calls (run sim.world
                  (main.serve handler0 main.DELETE_rolesets_name
                              (request "" "")) provisioned) = [].
Proof.
  exact (empty_name_is_rejected sim.world handler0 main.DELETE_rolesets_name
           (request "" "") provisioned eq_refl eq_refl).
Defined.

(** X11.  The token route does not look at what is wrong with its body: a
    body that cannot be decoded is a request without TTL, and the token is
    read from [gcp/token/{name}] under the 30 s timeout. *)
Theorem GetAccessToken_ignores_bad_body (W : World) (h : handlers.Handler)
        (c : gin.Context) (s : State W) (e : string) :
  gin.Param c "name" <> "" ->
  json.Decode (gin.Body c) = Err e ->
  calls (run W (main.serve h main.POST_tokens_name c) s)
  = [LogicalRead (WithTimeout (gin.RequestContext c) (30 * Second))
                 ("gcp/token/" +:+ gin.Param c "name")].
Proof.
  intros Hname Hbody. apply String.eqb_neq in Hname.
  rewrite serve_calls.
  unfold main.handler, handlers.GetAccessToken,
    handlers.ShouldBindJSON_TokenRequest, json.bind.
  rewrite Hname, Hbody. cbn [fst handlers.TTL json.get find]. prog.
  apply single_calls; [apply GetToken_single_read |].
  intros [? | ?]; exact I.
Qed.

Lemma GetAccessToken_ignores_bad_body_witness :
  json.Decode "ttl=1800s" = Err "invalid character in JSON input"
  /\ calls (run sim.world
                (main.serve handler0 main.POST_tokens_name
                            (request "r1" "ttl=1800s")) provisioned)
     = [LogicalRead (WithTimeout (Inbound 0) (30 * Second)) "gcp/token/r1"].
Proof.
  split; [vm_compute; reflexivity |].
  refine (GetAccessToken_ignores_bad_body sim.world handler0
            (request "r1" "ttl=1800s") provisioned
            "invalid character in JSON input" _ _).
  - discriminate.
  - vm_compute. reflexivity.
Defined.

(** X12.  On the list, delete, token and key routes a failure of the
    Vault call is answered 500, with the route's message and, as details,
    the gateway's prefix followed by the upstream error text. *)
Theorem upstream_error_is_a_500 (W : World) (h : handlers.Handler)
        (c : gin.Context) (s : State W) (e : string) :
  (fst (answer W (LogicalList
                    (WithTimeout (gin.RequestContext c) (15 * Second))
                    "gcp/roleset") s) = Err e ->
   outcome (run W (main.serve h main.GET_rolesets c) s)
   = Returned (handlers.JSON http.StatusInternalServerError
                 (handlers.ErrorResponse "Failed to list rolesets"
                    ("failed to list rolesets: " +:+ e))))
  /\ (gin.Param c "name" <> "" ->
      fst (answer W (LogicalDelete
                       (WithTimeout (gin.RequestContext c) (15 * Second))
                       ("gcp/roleset/" +:+ gin.Param c "name")) s) = Err e ->
      outcome (run W (main.serve h main.DELETE_rolesets_name c) s)
      = Returned (handlers.JSON http.StatusInternalServerError
                    (handlers.ErrorResponse "Failed to delete roleset"
                       ("failed to delete roleset: " +:+ e))))
  /\ (gin.Param c "name" <> "" ->
      token_answer W s (WithTimeout (gin.RequestContext c) (30 * Second))
                   (gin.Param c "name")
                   (handlers.TTL
                      (fst (handlers.ShouldBindJSON_TokenRequest c)))
      = Err e ->
      outcome (run W (main.serve h main.POST_tokens_name c) s)
      = Returned (handlers.JSON http.StatusInternalServerError
                    (handlers.ErrorResponse "Failed to generate access token"
                       ("failed to get access token: " +:+ e))))
  /\ (gin.Param c "name" <> "" ->
      fst (answer W (LogicalRead
                       (WithTimeout (gin.RequestContext c) (30 * Second))
                       ("gcp/key/" +:+ gin.Param c "name")) s) = Err e ->
      outcome (run W (main.serve h main.POST_keys_name c) s)
      = Returned (handlers.JSON http.StatusInternalServerError
                    (handlers.ErrorResponse
                       "Failed to generate service account key"
                       ("failed to get service account key: " +:+ e)))).
Proof.
  repeat split.
  - intros Herr. apply serve_returned.
    unfold main.handler, handlers.ListRolesets, vault.ListRolesets. prog.
    rewrite run_do, Herr. reflexivity.
  - intros Hname Herr. apply String.eqb_neq in Hname. apply serve_returned.
    unfold main.handler, handlers.DeleteRoleset, vault.DeleteRoleset.
    rewrite Hname. prog. rewrite run_do, Herr. reflexivity.
  - intros Hname Herr. apply String.eqb_neq in Hname. apply serve_returned.
    unfold main.handler, handlers.GetAccessToken, vault.GetToken.
    unfold token_answer in Herr. rewrite Hname. prog.
    destruct (negb (String.eqb
                 (handlers.TTL (fst (handlers.ShouldBindJSON_TokenRequest c)))
                 "")); cbn [bind]; rewrite run_do, Herr; reflexivity.
  - intros Hname Herr. apply String.eqb_neq in Hname. apply serve_returned.
    unfold main.handler, handlers.GetServiceAccountKey,
      vault.GetServiceAccountKey.
    rewrite Hname. prog. rewrite run_do, Herr. reflexivity.
Qed.

Lemma upstream_error_is_a_500_witness :
  outcome (run (fixed down)
               (main.serve handler0 main.POST_keys_name (request "r1" "")) tt)
  = Returned (handlers.JSON http.StatusInternalServerError
                (handlers.ErrorResponse
                   "Failed to generate service account key"
                   ("failed to get service account key: " +:+ refused))).
Proof.
  refine (proj2 (proj2 (proj2
            (upstream_error_is_a_500 (fixed down) handler0 (request "r1" "")
               tt refused))) _ eq_refl).
  discriminate.
Defined.

(** X13.  The health route makes one call, the probe, under the handler's
    5 s timeout and the gateway's own; it answers 200 exactly when the
    probe succeeds and reports Vault initialized and unsealed, and 503
    otherwise. *)
Theorem health_route (W : World) (h : handlers.Handler) (c : gin.Context)
        (s : State W) :
  exists resp,
    outcome (run W (main.serve h main.GET_health c) s) = Returned resp
    /\ calls (run W (main.serve h main.GET_health c) s)
       = [SysHealth (WithTimeout
                       (WithTimeout (gin.RequestContext c) (5 * Second))
                       (5 * Second))]
    /\ (handlers.Status resp = http.StatusOK
        <-> exists health,
              fst (answer W (SysHealth
                               (WithTimeout
                                  (WithTimeout (gin.RequestContext c)
                                               (5 * Second))
                                  (5 * Second))) s) = Ok health
              /\ api.Initialized health = true
              /\ api.Sealed health = false)
    /\ (handlers.Status resp = http.StatusOK
        \/ handlers.Status resp = http.StatusServiceUnavailable).
Proof.
  assert (Hcalls : calls (run W (main.serve h main.GET_health c) s)
                   = [SysHealth (WithTimeout
                        (WithTimeout (gin.RequestContext c) (5 * Second))
                        (5 * Second))]).
  { rewrite serve_calls. unfold main.handler, handlers.HealthCheck. prog.
    apply single_calls; [apply HealthCheck_single |].
    intros [? |]; exact I. }
  rewrite Hcalls.
  assert (Hh : exists resp,
             outcome (run W (main.handler h main.GET_health c) s)
             = Returned resp
             /\ (handlers.Status resp = http.StatusOK
                 <-> exists health,
                       fst (answer W (SysHealth
                              (WithTimeout
                                 (WithTimeout (gin.RequestContext c)
                                              (5 * Second))
                                 (5 * Second))) s) = Ok health
                       /\ api.Initialized health = true
                       /\ api.Sealed health = false)
             /\ (handlers.Status resp = http.StatusOK
                 \/ handlers.Status resp = http.StatusServiceUnavailable)).
  { unfold main.handler, handlers.HealthCheck, vault.HealthCheck. prog.
    rewrite run_do. cbn [outcome].
    destruct (fst (answer W (SysHealth _) s)) as [[init sealed] | err].
    - destruct init, sealed; cbn; eexists; (split; [reflexivity |]);
        (split; [| auto]); cbn;
        (split; [ first [ intros _; eexists; repeat split; reflexivity
                        | discriminate ]
                | first [ reflexivity
                        | intros (health & [= <-] & Hi & Hs); cbn in *;
                          discriminate ] ]).
    - cbn. eexists. split; [reflexivity |]. split; [| auto]. cbn.
      split; [discriminate | intros (health & Heq & _); discriminate]. }
  destruct Hh as (resp & Hret & Hiff & Hor). exists resp.
  split; [apply (serve_returned W h main.GET_health c s resp Hret) |].
  auto.
Qed.

(** X14.  Start-up runs [Initialize] and then the health check, both under
    one 60 s timeout.  A failure of [Initialize] is the result and no probe
    is made; after a success the probe is the one further call, and its
    verdict is the result. *)
Theorem startup_sequence (W : World) (c : vault.Client) (s : State W) :
  (forall err,
     outcome (run W (vault.Initialize c
                       (WithTimeout Background (60 * Second))) s)
     = Returned (Some err) ->
     outcome (run W (main.startup c) s) = Returned (Some err)
     /\ calls (run W (main.startup c) s)
        = calls (run W (vault.Initialize c
                          (WithTimeout Background (60 * Second))) s))
  /\ (outcome (run W (vault.Initialize c
                        (WithTimeout Background (60 * Second))) s)
      = Returned None ->
      outcome (run W (main.startup c) s)
      = outcome (run W (vault.HealthCheck c
                          (WithTimeout Background (60 * Second)))
                     (final (run W (vault.Initialize c
                                      (WithTimeout Background (60 * Second)))
                                 s)))
      /\ calls (run W (main.startup c) s)
         = (calls (run W (vault.Initialize c
                            (WithTimeout Background (60 * Second))) s)
            ++ [SysHealth (WithTimeout (WithTimeout Background (60 * Second))
                                       (5 * Second))])%list).
Proof.
  unfold main.startup. prog. split.
  - intros err Hinit.
    rewrite run_bind_outcome, run_bind_calls, Hinit. cbn.
    rewrite app_nil_r. split; reflexivity.
  - intros Hinit.
    rewrite run_bind_outcome, run_bind_calls, Hinit.
    split; [reflexivity |]. f_equal.
    apply single_run_calls, HealthCheck_single.
Qed.

(** X15.  Whatever the route, the request and the answers of Vault, the
    chain returns a response: a panic never leaves it. *)
Theorem serve_never_panics (W : World) (h : handlers.Handler)
        (r : main.Route) (c : gin.Context) (s : State W) :
  exists resp, outcome (run W (main.serve h r c) s) = Returned resp.
Proof.
  unfold main.serve, handlers.ErrorHandlingMiddleware,
    handlers.LoggingMiddleware.
  rewrite run_recovering_outcome.
  destruct (outcome (run W (main.handler h r c) s)); cbn; eauto.
Qed.

(** X16.  A request makes at most one call to Vault: nothing is retried,
    and no route reads before it writes. *)
Theorem at_most_one_call (W : World) (h : handlers.Handler)
        (r : main.Route) (c : gin.Context) (s : State W) :
  (length (calls (run W (main.serve h r c) s)) <= 1)%nat.
Proof.
  rewrite serve_calls.
  destruct r; unfold main.handler.
  - unfold handlers.HealthCheck. prog.
    rewrite (single_calls W _ _ _ s (HealthCheck_single _ _));
      [cbn; lia | intros [? |]; exact I].
  - unfold handlers.ListRolesets. prog.
    rewrite (single_calls W _ _ _ s (ListRolesets_single _ _));
      [cbn; lia | intros [? | ?]; exact I].
  - unfold handlers.CreateRoleset.
    destruct (String.eqb (gin.Param c "name") ""); [cbn; lia |].
    destruct (handlers.ShouldBindJSON_RolesetRequest c) as [req | err];
      [| cbn; lia].
    destruct (json.UnmarshalMap (vault.Bindings req)) as [entries | err];
      [| cbn; lia].
    prog.
    rewrite (single_calls W _ _ _ s (CreateRoleset_single _ _ _ _));
      [cbn; lia | intros [? |]; exact I].
  - unfold handlers.DeleteRoleset.
    destruct (String.eqb (gin.Param c "name") ""); [cbn; lia |]. prog.
    rewrite (single_calls W _ _ _ s (DeleteRoleset_single _ _ _));
      [cbn; lia | intros [? |]; exact I].
  - unfold handlers.GetAccessToken.
    destruct (String.eqb (gin.Param c "name") ""); [cbn; lia |]. prog.
    destruct (GetToken_single (handlers.vaultClient h)
                (WithTimeout (gin.RequestContext c) (30 * Second))
                (gin.Param c "name")
                (handlers.TTL (fst (handlers.ShouldBindJSON_TokenRequest c))))
      as (cl & Hsingle & _).
    rewrite (single_calls W _ _ _ s Hsingle);
      [cbn; lia | intros [? | ?]; exact I].
  - unfold handlers.GetServiceAccountKey.
    destruct (String.eqb (gin.Param c "name") ""); [cbn; lia |]. prog.
    rewrite (single_calls W _ _ _ s (GetServiceAccountKey_single _ _ _));
      [cbn; lia | intros [? | ?]; exact I].
Qed.

(** ** The create-roleset route *)




(** X18.  A create-roleset request that passes validation and whose
    [bindings] text is not a JSON object (it is absent, malformed, an
    array, a number) is answered 400 [Invalid bindings format]; the
    decoder's own message is dropped and no call is made. *)
Theorem CreateRoleset_bad_bindings (W : World) (h : handlers.Handler)
        (c : gin.Context) (s : State W) (req : vault.RolesetRequest)
        (e : string) :
  gin.Param c "name" <> "" ->
  handlers.ShouldBindJSON_RolesetRequest c = Ok req ->
  json.UnmarshalMap (vault.Bindings req) = Err e ->
  outcome (run W (main.serve h main.POST_rolesets_name c) s)
  = Returned (handlers.JSON http.StatusBadRequest
                (handlers.H [("error", "Invalid bindings format")]))
  /\ calls (run W (main.serve h main.POST_rolesets_name c) s) = [].
Proof.
  intros Hname Hbind Hparse. apply String.eqb_neq in Hname.
  assert (Hret : main.handler h main.POST_rolesets_name c
                 = Ret (handlers.JSON http.StatusBadRequest
                          (handlers.H [("error", "Invalid bindings format")]))).
  { unfold main.handler, handlers.CreateRoleset.
    rewrite Hname, Hbind, Hparse. reflexivity. }
  destruct (serve_returned W h main.POST_rolesets_name c s _
              (f_equal (fun p => outcome (run W p s)) Hret)) as [Ho Hc].
  rewrite Ho, Hc, Hret. auto.
Qed.

Lemma CreateRoleset_bad_bindings_witness :
  outcome (run sim.world
               (main.serve handler0 main.POST_rolesets_name
                  (request "r1" body_array_bindings)) provisioned)
  = Returned (handlers.JSON http.StatusBadRequest
                (handlers.H [("error", "Invalid bindings format")])).
Proof.
  refine (proj1 (CreateRoleset_bad_bindings sim.world handler0
                   (request "r1" _) provisioned
                   {| vault.Project := "p"; vault.SecretType := "access_token";
                      vault.TokenScopes := ""; vault.Bindings := "[1]";
                      vault.TTL := ""; vault.MaxTTL := "" |}
                   ("json: cannot unmarshal array into Go value of type "
                    +:+ "map[string]interface {}") _ _ _)).
  - discriminate.
  - vm_compute. reflexivity.
  - vm_compute. reflexivity.
Defined.

(** X22.  The binding tags of [RolesetRequest] accept exactly the requests
    with a project that is not empty and a secret type that is
    [access_token] or [service_account_key]; the other fields are not
    looked at. *)
Theorem RolesetRequest_validate_accepts (req : vault.RolesetRequest) :
  vault.RolesetRequest_validate req = []
  <-> vault.Project req <> ""
      /\ (vault.SecretType req = "access_token"
          \/ vault.SecretType req = "service_account_key").
Proof.
  split; [apply RolesetRequest_validate_nil |].
  intros [Hp Hs]. apply String.eqb_neq in Hp.
  unfold vault.RolesetRequest_validate, binding.required. rewrite Hp.
  destruct Hs as [-> | ->]; reflexivity.
Qed.

(** ** Where the calls go *)

Lemma GetToken_single_under (c : vault.Client) (ctx : Context)
      (name ttl : string) :
  exists call,
    single call (vault.GetToken c ctx name ttl) /\ under_gcp call = true.
Proof.
  unfold vault.GetToken. prog.
  destruct (negb (String.eqb ttl "")); cbn [bind];
    eexists; (split; [eexists; split; [reflexivity |] | reflexivity]);
    intros [[[[d |]] |] | err]; cbn; try exact I;
    repeat (apply quiet_assertion; intros ?); exact I.
Qed.

Lemma configureGCPEngine_under_gcp (W : World) (c : vault.Client)
      (ctx : Context) (s : State W) :
  forallb under_gcp (calls (run W (vault.configureGCPEngine c ctx) s)) = true.
Proof.
  unfold vault.configureGCPEngine, vault.writeConfig. prog.
  destruct (negb _); rewrite !run_do; cbn [calls forallb under_gcp andb].
  - destruct (fst (answer W (ReadFile _) s)); cbn [bind].
    + rewrite run_do. cbn [calls forallb andb].
      destruct (fst (answer W (LogicalWrite _ _ _) _)); reflexivity.
    + reflexivity.
  - destruct (fst (answer W _ s)); reflexivity.
Qed.

Lemma Initialize_under_gcp (W : World) (c : vault.Client) (ctx : Context)
      (s : State W) :
  forallb under_gcp (calls (run W (vault.Initialize c ctx) s)) = true.
Proof.
  destruct (answer W SysListMounts s) as [[mounts | err] s1] eqn:Hlist.
  - destruct (mounted W mounts s1) as [s2 |] eqn:Hm.
    + destruct (Initialize_run W c ctx s s1 s2 mounts Hlist Hm) as [Hc _].
      rewrite Hc. cbn [forallb under_gcp andb]. rewrite forallb_app.
      rewrite configureGCPEngine_under_gcp.
      destruct (vault.gcpMountExists mounts); reflexivity.
    + destruct (Initialize_mount_failure W c ctx s s1 mounts Hlist Hm)
        as [Hc _].
      rewrite Hc. reflexivity.
  - unfold vault.Initialize. prog. rewrite run_do, Hlist. reflexivity.
Qed.

(** X19.  The service keeps to its mount: every logical call of every
    route, and of start-up, is to a path under [gcp/], and the only mount
    call is to [gcp]. *)
Theorem calls_stay_under_gcp (W : World) (h : handlers.Handler)
        (r : main.Route) (c : gin.Context) (client : vault.Client)
        (s : State W) :
  forallb under_gcp (calls (run W (main.serve h r c) s)) = true
  /\ forallb under_gcp (calls (run W (main.startup client) s)) = true.
Proof.
  split.
  - rewrite serve_calls. destruct r; unfold main.handler.
    + unfold handlers.HealthCheck. prog.
      rewrite (single_calls W _ _ _ s (HealthCheck_single _ _));
        [reflexivity | intros [? |]; exact I].
    + unfold handlers.ListRolesets. prog.
      rewrite (single_calls W _ _ _ s (ListRolesets_single _ _));
        [reflexivity | intros [? | ?]; exact I].
    + unfold handlers.CreateRoleset.
      destruct (String.eqb (gin.Param c "name") ""); [reflexivity |].
      destruct (handlers.ShouldBindJSON_RolesetRequest c) as [req | err];
        [| reflexivity].
      destruct (json.UnmarshalMap (vault.Bindings req)) as [entries | err];
        [| reflexivity].
      prog.
      rewrite (single_calls W _ _ _ s (CreateRoleset_single _ _ _ _));
        [reflexivity | intros [? |]; exact I].
    + unfold handlers.DeleteRoleset.
      destruct (String.eqb (gin.Param c "name") ""); [reflexivity |]. prog.
      rewrite (single_calls W _ _ _ s (DeleteRoleset_single _ _ _));
        [reflexivity | intros [? |]; exact I].
    + unfold handlers.GetAccessToken.
      destruct (String.eqb (gin.Param c "name") ""); [reflexivity |]. prog.
      destruct (GetToken_single_under (handlers.vaultClient h)
                  (WithTimeout (gin.RequestContext c) (30 * Second))
                  (gin.Param c "name")
                  (handlers.TTL
                     (fst (handlers.ShouldBindJSON_TokenRequest c))))
        as (cl & Hsingle & Hunder).
      rewrite (single_calls W _ _ _ s Hsingle);
        [cbn; rewrite Hunder; reflexivity | intros [? | ?]; exact I].
    + unfold handlers.GetServiceAccountKey.
      destruct (String.eqb (gin.Param c "name") ""); [reflexivity |]. prog.
      rewrite (single_calls W _ _ _ s (GetServiceAccountKey_single _ _ _));
        [reflexivity | intros [? | ?]; exact I].
  - unfold main.startup. prog. rewrite run_bind_calls, forallb_app.
    rewrite Initialize_under_gcp.
    destruct (outcome (run W (vault.Initialize client _) s)) as [[err |] | v];
      try reflexivity.
    rewrite (single_run_calls W _ _ _ (HealthCheck_single _ _)).
    reflexivity.
Qed.

(** ** Timeouts *)

Lemma bound_WithTimeout (parent : Context) (d : Duration) :
  exists x, bound (WithTimeout parent d) = Some x /\ x <= d.
Proof.
  cbn. destruct (bound parent) as [d' |]; eexists; (split; [reflexivity |]);
    lia.
Qed.

(** X20.  On every route but the create-roleset one, the context of each
    call is derived from the request's and is bounded by a timeout of 30 s
    at most. *)
Theorem calls_are_bounded (W : World) (h : handlers.Handler)
        (r : main.Route) (c : gin.Context) (s : State W) :
  derives_context r = true ->
  every_ctx (fun ctx =>
               derived ctx (gin.RequestContext c)
               /\ exists d, bound ctx = Some d /\ d <= 30 * Second)
            (calls (run W (main.serve h r c) s)).
Proof.
  intros Hr. rewrite serve_calls. unfold every_ctx.
  assert (Hd : forall d,
             d <= 30 * Second ->
             derived (WithTimeout (gin.RequestContext c) d)
                     (gin.RequestContext c)
             /\ exists x,
                  bound (WithTimeout (gin.RequestContext c) d) = Some x
                  /\ x <= 30 * Second).
  { intros d Hle. split; [right; apply derived_refl |].
    destruct (bound_WithTimeout (gin.RequestContext c) d) as (x & Hx & Hxd).
    exists x. split; [exact Hx | lia]. }
  assert (H15 : 15 * Second <= 30 * Second) by (unfold Second; lia).
  assert (H30 : 30 * Second <= 30 * Second) by lia.
  destruct r; try discriminate Hr; unfold main.handler.
  - unfold handlers.HealthCheck. prog.
    rewrite (single_calls W _ _ _ s (HealthCheck_single _ _));
      [| intros [? |]; exact I].
    constructor; [| constructor]. cbn [call_ctx]. split.
    + right. right. apply derived_refl.
    + destruct (bound_WithTimeout
                  (WithTimeout (gin.RequestContext c) (5 * Second))
                  (5 * Second)) as (x & Hx & Hxd).
      exists x. split; [exact Hx |]. unfold Second in *. lia.
  - unfold handlers.ListRolesets. prog.
    rewrite (single_calls W _ _ _ s (ListRolesets_single _ _));
      [| intros [? | ?]; exact I].
    constructor; [| constructor]. apply Hd, H15.
  - unfold handlers.DeleteRoleset. prog.
    destruct (String.eqb (gin.Param c "name") ""); [constructor |].
    rewrite (single_calls W _ _ _ s (DeleteRoleset_single _ _ _));
      [| intros [? |]; exact I].
    constructor; [| constructor]. apply Hd, H15.
  - unfold handlers.GetAccessToken. prog.
    destruct (String.eqb (gin.Param c "name") ""); [constructor |].
    destruct (GetToken_single (handlers.vaultClient h)
                (WithTimeout (gin.RequestContext c) (30 * Second))
                (gin.Param c "name")
                (handlers.TTL (fst (handlers.ShouldBindJSON_TokenRequest c))))
      as (call & Hsingle & Hctx).
    rewrite (single_calls W _ _ _ s Hsingle); [| intros [? | ?]; exact I].
    constructor; [| constructor]. rewrite Hctx. apply Hd, H30.
  - unfold handlers.GetServiceAccountKey. prog.
    destruct (String.eqb (gin.Param c "name") ""); [constructor |].
    rewrite (single_calls W _ _ _ s (GetServiceAccountKey_single _ _ _));
      [| intros [? | ?]; exact I].
    constructor; [| constructor]. apply Hd, H30.
Qed.

Lemma calls_are_bounded_witness :
  every_ctx (fun ctx =>
               derived ctx (Inbound 0)
               /\ exists d, bound ctx = Some d /\ d <= 30 * Second)
            (calls (run sim.world
                        (main.serve handler0 main.DELETE_rolesets_name
                                    (request "r1" "")) provisioned)).
Proof.
  exact (calls_are_bounded sim.world handler0 main.DELETE_rolesets_name
           (request "r1" "") provisioned eq_refl).
Defined.

(** A request whose every call with a timeout of 30 s at most fails does
    not succeed, on the routes that put such a timeout on their call. *)
Lemma timed_calls_fail (W : World) (h : handlers.Handler)
      (r : main.Route) (c : gin.Context) (s : State W) :
  derives_context r = true ->
  (forall call parent d,
     call_ctx call = Some (WithTimeout parent d) ->
     d <= 30 * Second ->
     failed call (fst (answer W call s))) ->
  exists resp,
    outcome (run W (main.serve h r c) s) = Returned resp
    /\ ~ succeeded resp.
Proof.
  intros Hr Hfail.
  assert (H5 : 5 * Second <= 30 * Second) by (unfold Second; lia).
  assert (H15 : 15 * Second <= 30 * Second) by (unfold Second; lia).
  assert (H30 : 30 * Second <= 30 * Second) by lia.
  assert (Hh : exists resp,
             outcome (run W (main.handler h r c) s) = Returned resp
             /\ ~ succeeded resp).
  { destruct r; try discriminate Hr; unfold main.handler.
    - unfold handlers.HealthCheck, vault.HealthCheck. prog. rewrite run_do.
      destruct (Hfail (SysHealth (WithTimeout
                         (WithTimeout (gin.RequestContext c) (5 * Second))
                         (5 * Second))) _ _ eq_refl H5) as [e He].
      rewrite He. cbn. eexists. split; [reflexivity |].
      intros [H | H]; discriminate H.
    - unfold handlers.ListRolesets, vault.ListRolesets. prog. rewrite run_do.
      destruct (Hfail (LogicalList
                         (WithTimeout (gin.RequestContext c) (15 * Second))
                         "gcp/roleset") _ _ eq_refl H15) as [e He].
      rewrite He. cbn. eexists. split; [reflexivity |].
      intros [H | H]; discriminate H.
    - unfold handlers.DeleteRoleset, vault.DeleteRoleset. prog.
      destruct (String.eqb (gin.Param c "name") "").
      + cbn. eexists. split; [reflexivity |].
        intros [H | H]; discriminate H.
      + rewrite run_do.
        destruct (Hfail (LogicalDelete
                           (WithTimeout (gin.RequestContext c) (15 * Second))
                           ("gcp/roleset/" +:+ gin.Param c "name"))
                        _ _ eq_refl H15) as [e He].
        rewrite He. cbn. eexists. split; [reflexivity |].
        intros [H | H]; discriminate H.
    - unfold handlers.GetAccessToken, vault.GetToken. prog.
      destruct (String.eqb (gin.Param c "name") "").
      + cbn. eexists. split; [reflexivity |].
        intros [H | H]; discriminate H.
      + destruct (negb (String.eqb
                    (handlers.TTL
                       (fst (handlers.ShouldBindJSON_TokenRequest c))) ""));
          cbn [bind]; rewrite run_do.
        * destruct (Hfail (LogicalWrite
                             (WithTimeout (gin.RequestContext c)
                                          (30 * Second))
                             ("gcp/token/" +:+ gin.Param c "name")
                             (<["ttl" :=
                                  VString
                                    (handlers.TTL
                                       (fst
                                          (handlers.ShouldBindJSON_TokenRequest
                                             c)))]> ∅))
                          _ _ eq_refl H30) as [e He].
          rewrite He. cbn. eexists. split; [reflexivity |].
          intros [H | H]; discriminate H.
        * destruct (Hfail (LogicalRead
                             (WithTimeout (gin.RequestContext c)
                                          (30 * Second))
                             ("gcp/token/" +:+ gin.Param c "name"))
                          _ _ eq_refl H30) as [e He].
          rewrite He. cbn. eexists. split; [reflexivity |].
          intros [H | H]; discriminate H.
    - unfold handlers.GetServiceAccountKey, vault.GetServiceAccountKey. prog.
      destruct (String.eqb (gin.Param c "name") "").
      + cbn. eexists. split; [reflexivity |].
        intros [H | H]; discriminate H.
      + rewrite run_do.
        destruct (Hfail (LogicalRead
                           (WithTimeout (gin.RequestContext c) (30 * Second))
                           ("gcp/key/" +:+ gin.Param c "name"))
                        _ _ eq_refl H30) as [e He].
        rewrite He. cbn. eexists. split; [reflexivity |].
        intros [H | H]; discriminate H. }
  destruct Hh as (resp & Hret & Hbad). exists resp.
  split; [apply (serve_returned W h r c s resp Hret) | exact Hbad].
Qed.

(** X21.  With a client that gives up the calls whose context is done, a
    request on a route other than the create-roleset one does not succeed
    once its context is cancelled, nor once 30 s have passed: the call is
    given up and the failure is the answer. *)
Theorem done_request_is_not_served (W : World) (h : handlers.Handler)
        (r : main.Route) (c : gin.Context) (s : State W)
        (cancelled : nat -> bool) (elapsed : Duration) :
  honours cancelled elapsed W ->
  derives_context r = true ->
  is_Some (ctxErr cancelled elapsed (gin.RequestContext c))
  \/ 30 * Second <= elapsed ->
  exists resp,
    outcome (run W (main.serve h r c) s) = Returned resp
    /\ ~ succeeded resp.
Proof.
  intros Hhon Hr [Hdone | Hlate].
  - exact (cancelled_request_fails W h r c s cancelled elapsed Hhon Hr Hdone).
  - apply timed_calls_fail; [exact Hr |].
    intros call parent d Hctx Hd. apply (Hhon call _ s Hctx).
    cbn. destruct (ctxErr cancelled elapsed parent); [eauto |].
    assert (Hle : (d <=? elapsed) = true) by (apply Z.leb_le; lia).
    rewrite Hle. eauto.
Qed.

Lemma done_request_is_not_served_witness :
  exists resp,
    outcome (run (honouring (fun _ => false) (30 * Second) sim.world)
                 (main.serve handler0 main.GET_rolesets (request "" ""))
                 provisioned)
    = Returned resp
    /\ ~ succeeded resp.
Proof.
  refine (done_request_is_not_served
            (honouring (fun _ => false) (30 * Second) sim.world)
            handler0 main.GET_rolesets (request "" "") provisioned
            (fun _ => false) (30 * Second)
            (honouring_honours _ _ _) eq_refl _).
  right. lia.
Defined.

(** ** Successes *)

(** X23.  The list route answers 200 with the names Vault lists, in
    order, and with their number as [count]; an answer without data is the
    empty list with count 0. *)
Theorem ListRolesets_route_counts (W : World) (h : handlers.Handler)
        (c : gin.Context) (s : State W) :
  (forall secret d names,
     fst (answer W (LogicalList
                      (WithTimeout (gin.RequestContext c) (15 * Second))
                      "gcp/roleset") s) = Ok (Some secret) ->
     api.Data secret = Some d ->
     d !! "keys" = Some (VSlice (map VString names)) ->
     outcome (run W (main.serve h main.GET_rolesets c) s)
     = Returned (handlers.JSON http.StatusOK
                   (handlers.SuccessResponse "Rolesets retrieved successfully"
                      (Some (handlers.RolesetsData names
                               (Z.of_nat (length names)))))))
  /\ (no_data (fst (answer W (LogicalList
                               (WithTimeout (gin.RequestContext c)
                                            (15 * Second))
                               "gcp/roleset") s)) ->
      outcome (run W (main.serve h main.GET_rolesets c) s)
      = Returned (handlers.JSON http.StatusOK
                    (handlers.SuccessResponse
                       "Rolesets retrieved successfully"
                       (Some (handlers.RolesetsData [] 0))))).
Proof.
  split.
  - intros secret d names Hanswer Hdata Hkeys. apply serve_returned.
    unfold main.handler, handlers.ListRolesets, vault.ListRolesets. prog.
    rewrite run_do, Hanswer. cbn [outcome]. rewrite Hdata, Hkeys.
    cbn [assert_slice]. rewrite keyStrings_strings. reflexivity.
  - intros Hnone. apply serve_returned.
    unfold main.handler, handlers.ListRolesets, vault.ListRolesets. prog.
    rewrite run_do. cbn [outcome].
    destruct Hnone as [-> | (secret & -> & Hnil)]; cbn; rewrite ?Hnil;
      reflexivity.
Qed.

Lemma ListRolesets_route_counts_witness :
  outcome (run (fixed issuing)
               (main.serve handler0 main.GET_rolesets (request "" "")) tt)
  = Returned (handlers.JSON http.StatusOK
                (handlers.SuccessResponse "Rolesets retrieved successfully"
                   (Some (handlers.RolesetsData ["r1"; "r2"] 2)))).
Proof.
  exact (proj1 (ListRolesets_route_counts (fixed issuing) handler0
                  (request "" "") tt)
               {| api.Data :=
                    Some (<["keys" := VSlice [VString "r1"; VString "r2"]]>
                            ∅) |}
               _ ["r1"; "r2"] eq_refl eq_refl eq_refl).
Defined.

(** X24.  A delete that Vault accepts is answered 200 with the name given
    back; a token or a key Vault issues with well-typed fields is answered
    200 with those fields. *)
Theorem successful_call_is_a_200 (W : World) (h : handlers.Handler)
        (c : gin.Context) (s : State W) :
  gin.Param c "name" <> "" ->
  (forall secret,
     fst (answer W (LogicalDelete
                      (WithTimeout (gin.RequestContext c) (15 * Second))
                      ("gcp/roleset/" +:+ gin.Param c "name")) s)
     = Ok secret ->
     outcome (run W (main.serve h main.DELETE_rolesets_name c) s)
     = Returned (handlers.JSON http.StatusOK
                   (handlers.SuccessResponse "Roleset deleted successfully"
                      (Some (handlers.NameData (gin.Param c "name"))))))
  /\ (forall secret d token token_ttl expires,
        token_answer W s (WithTimeout (gin.RequestContext c) (30 * Second))
                     (gin.Param c "name")
                     (handlers.TTL
                        (fst (handlers.ShouldBindJSON_TokenRequest c)))
        = Ok (Some secret) ->
        api.Data secret = Some d ->
        d !! "token" = Some (VString token) ->
        d !! "token_ttl" = Some (VString token_ttl) ->
        d !! "expires_at_seconds" = Some (VFloat64 expires) ->
        outcome (run W (main.serve h main.POST_tokens_name c) s)
        = Returned
            (handlers.JSON http.StatusOK
               (handlers.SuccessResponse "Access token generated successfully"
                  (Some (handlers.TokenData
                           {| vault.Token := token;
                              vault.TokenTTL := token_ttl;
                              vault.ExpiresAtSeconds :=
                                int64_of_float64 expires |})))))
  /\ (forall secret d data algorithm type id,
        fst (answer W (LogicalRead
                         (WithTimeout (gin.RequestContext c) (30 * Second))
                         ("gcp/key/" +:+ gin.Param c "name")) s)
        = Ok (Some secret) ->
        api.Data secret = Some d ->
        d !! "private_key_data" = Some (VString data) ->
        d !! "key_algorithm" = Some (VString algorithm) ->
        d !! "key_type" = Some (VString type) ->
        d !! "key_id" = Some (VString id) ->
        outcome (run W (main.serve h main.POST_keys_name c) s)
        = Returned
            (handlers.JSON http.StatusOK
               (handlers.SuccessResponse
                  "Service account key generated successfully"
                  (Some (handlers.KeyData
                           {| vault.PrivateKeyData := data;
                              vault.KeyAlgorithm := algorithm;
                              vault.KeyType := type;
                              vault.KeyID := id |}))))).
Proof.
  intros Hname. apply String.eqb_neq in Hname. repeat split.
  - intros secret Hanswer. apply serve_returned.
    unfold main.handler, handlers.DeleteRoleset, vault.DeleteRoleset.
    rewrite Hname. prog. rewrite run_do, Hanswer. reflexivity.
  - intros secret d token token_ttl expires Hanswer Hdata Ht Httl He.
    apply serve_returned.
    unfold main.handler, handlers.GetAccessToken, vault.GetToken.
    unfold token_answer in Hanswer. rewrite Hname. prog.
    destruct (negb (String.eqb
                 (handlers.TTL (fst (handlers.ShouldBindJSON_TokenRequest c)))
                 "")); cbn [bind]; rewrite run_do, Hanswer; cbn [outcome];
      rewrite Hdata; unfold vault.assertion; rewrite Ht, Httl, He;
      reflexivity.
  - intros secret d data algorithm type id Hanswer Hdata H1 H2 H3 H4.
    apply serve_returned.
    unfold main.handler, handlers.GetServiceAccountKey,
      vault.GetServiceAccountKey.
    rewrite Hname. prog. rewrite run_do, Hanswer. cbn [outcome].
    rewrite Hdata. unfold vault.assertion. rewrite H1, H2, H3, H4.
    reflexivity.
Qed.

Lemma successful_call_is_a_200_witness :
  outcome (run (fixed issuing)
               (main.serve handler0 main.POST_tokens_name
                           (request "r1" (quoted "{'ttl':'1800s'}"))) tt)
  = Returned
      (handlers.JSON http.StatusOK
         (handlers.SuccessResponse "Access token generated successfully"
            (Some (handlers.TokenData
                     {| vault.Token := "ya29.c.c0ASRK0Ga";
                        vault.TokenTTL := "29m59s";
                        vault.ExpiresAtSeconds := 1758020274 |})))).
Proof.
  refine (proj1 (proj2 (successful_call_is_a_200 (fixed issuing) handler0
                          (request "r1" (quoted "{'ttl':'1800s'}")) tt _))
                {| api.Data := Some token_decoded |} token_decoded
                "ya29.c.c0ASRK0Ga" "29m59s" (S754_finite false 1758020274 0)
                _ eq_refl eq_refl eq_refl eq_refl).
  - discriminate.
  - vm_compute. reflexivity.
Defined.
